(** * Avatar request orchestrator (app.py): shallow embedding and properties

    The Flask service of [app.py] is embedded as follows.

    - Values decoded from JSON are the inductive [json]; Python's dynamic
      operations on them ([.get], [.strip], [in], truthiness, [==]) are
      functions that raise the interpreter's exception where Python does.
    - A [str] is the [string] of its UTF-8 encoding; [.strip()] removes the
      white space characters of Unicode, of one to three bytes.
    - Exceptions are values of [exn]; raising and [try/except] are an error
      monad.
    - The clock ([time.time], [time.sleep]) and the temporary directory
      ([tempfile], [os.unlink]) are the state [world] threaded through the
      monad; every external call is appended to a trace of [event]s.
    - The outside world (avatar provider, media host, uuid and temp-name
      generators) is the oracle [oracle]: it decides what each call answers
      and how long it takes.
    - [while] is a fixpoint on a fuel argument; [Diverge] is "fuel ran out".

    [time.time()] returns a binary64 float. A reading is taken here as the
    number it stands for, counted in microseconds, and the deadline
    [time.time() + timeout] as the exact sum. For the readings of the
    system clock of these decades (between 2^30 and 2^31 seconds, all of
    them multiples of 2^-22 s) and a whole timeout the binary64 sum is
    exact too. For readings of another size the sum is rounded, and a
    reading that close to the deadline can fall on its other side, so that
    the loop makes one pass more or less than here. The statements below
    say when a run ends and in what order it calls; none bounds the number
    of queries of a run, and the fuel that a statement supposes is a number
    of passes of this model. *)

From stdpp Require Import base strings gmap pretty list.
From Stdlib Require Import ZArith QArith_base Lia.

Close Scope Q_scope.
Open Scope Z_scope.

(** ** Decoded JSON values

    What [json.loads] builds: [None], [bool], [int], [float], [str], [list]
    and [dict] with string keys. A float is the rational it stands for
    (standard JSON has neither NaN nor infinities); a dict keeps its items
    in order, and a lookup takes the first item with the key. *)

#[local] Unset Elimination Schemes.
Inductive json :=
| JNull
| JBool (b : bool)
| JInt (n : Z)
| JFloat (q : Q)
| JStr (s : string)
| JArr (items : list json)
| JObj (fields : list (string * json)).
#[local] Set Elimination Schemes.

(** Python truthiness ([if x], [not x], [x or y]). *)
Definition truthy (v : json) : bool :=
  match v with
  | JNull => false
  | JBool b => b
  | JInt n => negb (n =? 0)
  | JFloat q => negb (Qeq_bool q (0 # 1))
  | JStr s => negb (String.eqb s "")
  | JArr items => match items with [] => false | _ => true end
  | JObj fields => match fields with [] => false | _ => true end
  end.

(** [v == s] for a [str] s: only an equal string is equal. *)
Definition py_eq_str (v : json) (s : string) : bool :=
  match v with
  | JStr t => String.eqb t s
  | _ => false
  end.

(** [v in l] for a list of strings [l]. *)
Definition in_str_list (v : json) (l : list string) : bool :=
  existsb (py_eq_str v) l.

(** [type(v).__name__] *)
Definition type_name (v : json) : string :=
  match v with
  | JNull => "NoneType"
  | JBool _ => "bool"
  | JInt _ => "int"
  | JFloat _ => "float"
  | JStr _ => "str"
  | JArr _ => "list"
  | JObj _ => "dict"
  end.

(** First binding of a key in a decoded object. *)
Fixpoint assoc (k : string) (fields : list (string * json)) : option json :=
  match fields with
  | [] => None
  | (k', v) :: rest => if String.eqb k' k then Some v else assoc k rest
  end.

(** ** Strings: [str.strip]

    A Python [str] is a sequence of Unicode code points. Here it is the
    [string] of its UTF-8 encoding, which is what a string literal of this
    file holds: a character takes one to four bytes (a lone surrogate, which
    [json.loads] can build, takes its three-byte form). Equality,
    concatenation, membership and dict lookup are the same on the encodings,
    and so is [rstrip("/")]: the byte of an ASCII character is part of no
    other character. [str.strip()] removes characters, some of them two and
    three bytes long, so it is written on the characters of the encoding;
    [strip_utf8] below relates it to the code points. *)

(** [chr(n).isspace()]: the characters [str.strip()] removes. *)
Definition py_isspace (n : N) : bool :=
  ((9 <=? n) && (n <=? 13) || (28 <=? n) && (n <=? 32)
   || (n =? 0x85) || (n =? 0xA0) || (n =? 0x1680)
   || (0x2000 <=? n) && (n <=? 0x200A) || (n =? 0x2028) || (n =? 0x2029)
   || (n =? 0x202F) || (n =? 0x205F) || (n =? 0x3000))%N.

(** A byte that continues a character. *)
Definition continuation (b : Ascii.ascii) : bool :=
  let n := Ascii.N_of_ascii b in ((0x80 <=? n) && (n <=? 0xBF))%N.

(** The code point of a character of one, two or three bytes; [None] when
    the bytes are not the encoding of one. *)
Definition point1 (a : Ascii.ascii) : option N :=
  let n := Ascii.N_of_ascii a in
  if (n <? 0x80)%N then Some n else None.

Definition point2 (a b : Ascii.ascii) : option N :=
  let n := Ascii.N_of_ascii a in
  if ((0xC2 <=? n) && (n <=? 0xDF))%N && continuation b
  then Some ((n - 0xC0) * 64 + (Ascii.N_of_ascii b - 0x80))%N
  else None.

Definition point3 (a b c : Ascii.ascii) : option N :=
  let n := Ascii.N_of_ascii a in
  if ((0xE0 <=? n) && (n <=? 0xEF))%N && continuation b && continuation c
  then let p := ((n - 0xE0) * 4096 + (Ascii.N_of_ascii b - 0x80) * 64
                 + (Ascii.N_of_ascii c - 0x80))%N in
       if (0x800 <=? p)%N then Some p else None
  else None.

Definition is_space (p : option N) : bool :=
  match p with
  | Some n => py_isspace n
  | None => false
  end.

(** [s.lstrip()]: the white space characters at the start are dropped. No
    character of four bytes is white space. *)
Fixpoint lstrip (s : string) : string :=
  match s with
  | EmptyString => EmptyString
  | String a s1 =>
      if is_space (point1 a) then lstrip s1
      else match s1 with
           | EmptyString => s
           | String b s2 =>
               if is_space (point2 a b) then lstrip s2
               else match s2 with
                    | EmptyString => s
                    | String c s3 => if is_space (point3 a b c) then lstrip s3 else s
                    end
           end
  end.

(** Every character of the string is white space. *)
Fixpoint all_space (s : string) : bool :=
  match s with
  | EmptyString => true
  | String a s1 =>
      if is_space (point1 a) then all_space s1
      else match s1 with
           | EmptyString => false
           | String b s2 =>
               if is_space (point2 a b) then all_space s2
               else match s2 with
                    | EmptyString => false
                    | String c s3 => is_space (point3 a b c) && all_space s3
                    end
           end
  end.

(** [s.rstrip()]: the string is cut where only white space follows. *)
Fixpoint rstrip (s : string) : string :=
  match s with
  | EmptyString => EmptyString
  | String a s1 => if all_space s then EmptyString else String a (rstrip s1)
  end.

Definition strip (s : string) : string := rstrip (lstrip s).

(** The string without its first character, when that one is white space. *)
Definition drop_space (s : string) : option string :=
  match s with
  | EmptyString => None
  | String a s1 =>
      if is_space (point1 a) then Some s1
      else match s1 with
           | EmptyString => None
           | String b s2 =>
               if is_space (point2 a b) then Some s2
               else match s2 with
                    | EmptyString => None
                    | String c s3 => if is_space (point3 a b c) then Some s3 else None
                    end
           end
  end.

Fixpoint continuations (s : string) : bool :=
  match s with
  | EmptyString => true
  | String b s' => continuation b && continuations s'
  end.

(** The UTF-8 encoding of a code point and of a text, and [str.strip()] on
    the code points. *)
Definition utf8_char (n : N) : string :=
  let byte k := Ascii.ascii_of_N k in
  if (n <? 0x80)%N then String (byte n) ""
  else if (n <? 0x800)%N
  then String (byte (0xC0 + n / 64)%N) (String (byte (0x80 + n mod 64)%N) "")
  else if (n <? 0x10000)%N
  then String (byte (0xE0 + n / 4096)%N)
         (String (byte (0x80 + (n / 64) mod 64)%N) (String (byte (0x80 + n mod 64)%N) ""))
  else String (byte (0xF0 + n / 262144)%N)
         (String (byte (0x80 + (n / 4096) mod 64)%N)
            (String (byte (0x80 + (n / 64) mod 64)%N)
               (String (byte (0x80 + n mod 64)%N) ""))).

Fixpoint utf8 (t : list N) : string :=
  match t with
  | [] => ""
  | n :: t' => utf8_char n +:+ utf8 t'
  end.

Definition code_point (n : N) : Prop := (n < 0x110000)%N.

Fixpoint str_lstrip (t : list N) : list N :=
  match t with
  | [] => []
  | n :: t' => if py_isspace n then str_lstrip t' else t
  end.

Fixpoint str_rstrip (t : list N) : list N :=
  match t with
  | [] => []
  | n :: t' => if forallb py_isspace t then [] else n :: str_rstrip t'
  end.

Definition str_strip (t : list N) : list N := str_rstrip (str_lstrip t).

(** [needle in hay] on strings. *)
Fixpoint substringb (needle hay : string) : bool :=
  String.prefix needle hay ||
  match hay with
  | EmptyString => false
  | String _ hay' => substringb needle hay'
  end.

(** [repr] of a list of strings none of which holds a quote, a backslash or
    a control character (the catalog's style names). *)
Fixpoint repr_items (l : list string) : string :=
  match l with
  | [] => ""
  | [s] => "'" +:+ s +:+ "'"
  | s :: rest => "'" +:+ s +:+ "', " +:+ repr_items rest
  end.

Definition repr_str_list (l : list string) : string :=
  "[" +:+ repr_items l +:+ "]".

(** ** Exceptions *)

(** Classes of the exceptions the program can meet, other than the two it
    raises itself. None of them derives from [RuntimeError] or from the
    built-in [TimeoutError]. *)
Inductive lib_class :=
| AttributeError
| TypeError
| KeyError
| ValueError
| FileNotFoundError
| BadRequest             (* werkzeug.exceptions, HTTP 400 *)
| UnsupportedMediaType   (* werkzeug.exceptions, HTTP 415 *)
| HTTPError              (* requests.exceptions *)
| ConnectionError        (* requests.exceptions *)
| MissingSchema          (* requests.exceptions *)
| JSONDecodeError        (* requests.exceptions *)
| ChunkedEncodingError   (* requests.exceptions *)
| CloudinaryError.       (* cloudinary.exceptions.Error *)

Inductive exn :=
| TimeoutError (msg : string)
| RuntimeError (msg : string)
| LibraryError (cls : lib_class) (msg : string).

(** [str(e)] *)
Definition exn_str (e : exn) : string :=
  match e with
  | TimeoutError msg => msg
  | RuntimeError msg => msg
  | LibraryError KeyError msg => "'" +:+ msg +:+ "'"
  | LibraryError _ msg => msg
  end.

(** ** The outside world *)

Record http_reply := {
  resp_status : Z;          (* resp.status_code *)
  resp_reason : string;     (* resp.reason *)
  resp_text : string;       (* resp.text *)
  resp_json : option json   (* resp.json(); None when the body is not JSON *)
}.

(** What a [requests] call meets: no usable answer (connection refused,
    reset, ...) or a reply. [took] is the call's duration in microseconds. *)
Inductive answer :=
| NoAnswer (took : N) (why : string)
| Answer (took : N) (r : http_reply).

(** What [cloudinary.uploader.upload] meets. *)
Inductive upload_answer :=
| Rejected (took : N) (why : string)
| Stored (took : N) (result : list (string * json)).

Record oracle := {
  uuid4 : string;                         (* str(uuid.uuid4()) *)
  put_answer : answer;                    (* job creation *)
  status_answer : nat -> answer;          (* k-th status query, from 0 *)
  download_answer : string -> answer;     (* GET of the result URL *)
  stream_error : option string;           (* iter_content breaks mid-stream *)
  temp_name : string;                     (* NamedTemporaryFile(...).name *)
  upload_result : upload_answer
}.

(** External calls, with the clock reading when issued and when finished. *)
Inductive event :=
| EvPut (url : string) (payload : json) (t0 t1 : Z) (a : answer)
| EvStatus (url : string) (t0 t1 : Z) (a : answer)
| EvDownload (url : string) (t0 t1 : Z) (a : answer)
| EvUpload (path : string) (t0 t1 : Z) (a : upload_answer).

Record world := {
  clock : Z;                 (* time.time(), microseconds *)
  tmpfiles : gset string     (* files present in the temp directory *)
}.

Definition seconds (n : Z) : Z := n * 1000000.

Definition advance (d : Z) (w : world) : world :=
  {| clock := clock w + d; tmpfiles := tmpfiles w |}.

Definition took_of (a : answer) : N :=
  match a with NoAnswer t _ => t | Answer t _ => t end.

Definition upload_took (a : upload_answer) : N :=
  match a with Rejected t _ => t | Stored t _ => t end.

(** ** Results and the two monads *)

Inductive result (A : Type) :=
| Ok (a : A)
| Raise (e : exn)
| Diverge.
Arguments Ok {A} a.
Arguments Raise {A} e.
Arguments Diverge {A}.

(** Computations of the interpreter that touch neither clock, files nor
    network: they return or raise. *)
Definition rbind {A B} (m : result A) (f : A -> result B) : result B :=
  match m with
  | Ok a => f a
  | Raise e => Raise e
  | Diverge => Diverge
  end.

Notation "x <~ m ;; k" := (rbind m (fun x => k))
  (at level 100, m at next level, right associativity).

(** Computations on the world: state, trace of external calls, exceptions. *)
Definition M (A : Type) : Type := world -> result A * world * list event.

Definition lift {A} (r : result A) : M A := fun w => (r, w, []).
Coercion lift : result >-> M.

Definition ret {A} (a : A) : M A := lift (Ok a).

Definition raise {A} (e : exn) : M A := lift (Raise e).

Definition bind {A B} (m : M A) (f : A -> M B) : M B :=
  fun w =>
    match m w with
    | (Ok a, w1, tr1) =>
        match f a w1 with
        | (r, w2, tr2) => (r, w2, tr1 ++ tr2)
        end
    | (Raise e, w1, tr1) => (Raise e, w1, tr1)
    | (Diverge, w1, tr1) => (Diverge, w1, tr1)
    end.

Notation "x <- m ;; k" := (bind m (fun x => k))
  (at level 100, m at next level, right associativity).
Notation "m ;;; k" := (bind m (fun _ => k))
  (at level 100, right associativity).

(** [try: body except Exception as e: handler e] *)
Definition try_except {A} (body : M A) (handler : exn -> M A) : M A :=
  fun w =>
    match body w with
    | (Raise e, w1, tr1) =>
        match handler e w1 with
        | (r, w2, tr2) => (r, w2, tr1 ++ tr2)
        end
    | other => other
    end.

(** ** Primitives of the interpreter and of the libraries *)

(** [d.get(key, default)] *)
Definition py_get (d : json) (key : string) (default : json) : result json :=
  match d with
  | JObj fields => Ok (match assoc key fields with Some v => v | None => default end)
  | _ => Raise (LibraryError AttributeError
                  ("'" +:+ type_name d +:+ "' object has no attribute 'get'"))
  end.

(** [v.strip()] *)
Definition py_strip (v : json) : result string :=
  match v with
  | JStr s => Ok (strip s)
  | _ => Raise (LibraryError AttributeError
                  ("'" +:+ type_name v +:+ "' object has no attribute 'strip'"))
  end.

(** [key in d] for a dict [d] with string keys: the key is hashed first. *)
Definition dict_contains {V} (d : gmap string V) (key : json) : result bool :=
  match key with
  | JArr _ | JObj _ =>
      Raise (LibraryError TypeError ("unhashable type: '" +:+ type_name key +:+ "'"))
  | JStr s => Ok (bool_decide (is_Some (d !! s)))
  | _ => Ok false
  end.

(** [d[key]] for a dict [d] with string keys; [shown] is [repr(key)]. *)
Definition dict_getitem {V} (d : gmap string V) (key : json) (shown : string) : result V :=
  match key with
  | JArr _ | JObj _ =>
      Raise (LibraryError TypeError ("unhashable type: '" +:+ type_name key +:+ "'"))
  | JStr s =>
      match d !! s with
      | Some v => Ok v
      | None => Raise (LibraryError KeyError shown)
      end
  | _ => Raise (LibraryError KeyError shown)
  end.

(** [400 <= code < 600] *)
Definition is_http_error (c : Z) : bool := (400 <=? c) && (c <? 600).

(** [resp.raise_for_status()] for a reply to a request of [url]. *)
Definition raise_for_status (url : string) (r : http_reply) : result unit :=
  let c := resp_status r in
  if (400 <=? c) && (c <? 500) then
    Raise (LibraryError HTTPError
             (pretty c +:+ " Client Error: " +:+ resp_reason r +:+ " for url: " +:+ url))
  else if (500 <=? c) && (c <? 600) then
    Raise (LibraryError HTTPError
             (pretty c +:+ " Server Error: " +:+ resp_reason r +:+ " for url: " +:+ url))
  else Ok tt.

(** [resp.json()] *)
Definition response_json (r : http_reply) : result json :=
  match resp_json r with
  | Some v => Ok v
  | None => Raise (LibraryError JSONDecodeError "Expecting value: line 1 column 1 (char 0)")
  end.

(** [time.time()] *)
Definition time_time : M Z := fun w => (Ok (clock w), w, []).

(** [time.sleep(secs)] *)
Definition time_sleep (secs : Z) : M unit :=
  fun w =>
    if secs <? 0
    then (Raise (LibraryError ValueError "sleep length must be non-negative"), w, [])
    else (Ok tt, advance (seconds secs) w, []).

(** A [requests] call: the clock advances by the call's duration, the call
    is recorded, and the call either raises or hands back the reply. *)
Definition perform (mk : Z -> Z -> answer -> event) (a : answer) : M http_reply :=
  fun w =>
    let w' := advance (Z.of_N (took_of a)) w in
    let ev := mk (clock w) (clock w') a in
    match a with
    | NoAnswer _ why => (Raise (LibraryError ConnectionError why), w', [ev])
    | Answer _ r => (Ok r, w', [ev])
    end.

(** [tempfile.NamedTemporaryFile(suffix=".mp4", delete=False)]: the file
    exists from here on. *)
Definition named_temporary_file (name : string) : M string :=
  fun w => (Ok name, {| clock := clock w; tmpfiles := {[ name ]} ∪ tmpfiles w |}, []).

(** [os.unlink(path)] *)
Definition os_unlink (path : string) : M unit :=
  fun w =>
    if bool_decide (path ∈ tmpfiles w)
    then (Ok tt, {| clock := clock w; tmpfiles := tmpfiles w ∖ {[ path ]} |}, [])
    else (Raise (LibraryError FileNotFoundError
                   ("[Errno 2] No such file or directory: '" +:+ path +:+ "'")), w, []).

(** ** The program *)

(** [AVATARS]: character -> allowed styles. *)
Definition AVATARS : gmap string (list string) :=
  list_to_map
    [ ("harry", ["business"; "casual"; "youthful"]);
      ("jeff", ["business"; "formal"]);
      ("lisa", ["casual-sitting"; "graceful-sitting"; "graceful-standing";
                "technical-sitting"; "technical-standing"]);
      ("lori", ["casual"; "graceful"; "formal"]);
      ("max", ["business"; "casual"; "formal"]);
      ("meg", ["formal"; "casual"; "business"]) ].

(** [VOICES]: gender -> voices, in the order written. *)
Definition VOICES : list (string * list string) :=
  [ ("female", ["th-TH-PremwadeeNeural"; "th-TH-AcharaNeural"]);
    ("male", ["th-TH-NiwatNeural"]) ].

(** [[v for vs in VOICES.values() for v in vs]] *)
Definition ALL_VOICES : list string := concat (map snd VOICES).

Definition API_VERSION : string := "2024-08-01".

(** The body of an inbound request as Flask sees it. *)
Inductive payload :=
| NotJson                (* the content type is not JSON *)
| Malformed              (* JSON content type, undecodable body *)
| Decoded (j : json).

Record request := {
  x_api_key : option string;     (* the X-API-Key header *)
  body : payload
}.

(** [jsonify(obj), code] *)
Record response := {
  code : Z;
  content : json
}.

Definition error_response (msg : string) (c : Z) : response :=
  {| code := c; content := JObj [("error", JStr msg)] |}.

(** [request.json]: Flask raises on a body it cannot decode ([BadRequest]),
    and on a content type that is not JSON ([UnsupportedMediaType]; Flask
    before 2.1 hands back [None] there, on which [.get] raises as it does
    on a decoded [null]). *)
Definition request_json (req : request) : result json :=
  match body req with
  | Decoded j => Ok j
  | Malformed =>
      Raise (LibraryError BadRequest "Failed to decode JSON object")
  | NotJson =>
      Raise (LibraryError UnsupportedMediaType
               "Did not attempt to load JSON data because the request Content-Type was not 'application/json'.")
  end.

(** [request.get_json(silent=True)] *)
Definition request_get_json_silent (req : request) : json :=
  match body req with
  | Decoded j => j
  | _ => JNull
  end.

(** [request.headers.get("X-API-Key") or request.json.get("key")] *)
Definition provided_key (req : request) : result json :=
  let header := match x_api_key req with Some h => JStr h | None => JNull end in
  if truthy header then Ok header
  else (j <~ request_json req;; py_get j "key" JNull).

(** [request.get_json(silent=True) or {}] *)
Definition request_data (req : request) : json :=
  let d := request_get_json_silent req in
  if truthy d then d else JObj [].

(** The payload of the job-creation call. *)
Definition job_payload (text : string) (voice character style background : json) : json :=
  let avatar_config :=
    [ ("talkingAvatarCharacter", character);
      ("talkingAvatarStyle", style);
      ("customized", JBool false);
      ("videoFormat", JStr "mp4");
      ("videoCodec", JStr "h264");
      ("subtitleType", JStr "soft_embedded");
      ("useBuiltInVoice", JBool false) ] in
  let avatar_config :=
    if truthy background
    then avatar_config ++ [("backgroundImage", background)]
    else avatar_config ++ [("backgroundColor", JStr "#FFFFFFFF")] in
  JObj [ ("inputKind", JStr "PlainText");
         ("synthesisConfig", JObj [("voice", voice)]);
         ("customVoices", JObj []);
         ("inputs", JArr [JObj [("content", JStr text)]]);
         ("avatarConfig", JObj avatar_config) ].

Section Service.

(** Configuration read from the environment at start-up. *)
Variable API_KEY : string.
Variable AVATAR_ENDPOINT : string.

(** Renderings done by the Python runtime: [str(v)] for a decoded value
    that is not a [str], and [json.dumps(v, indent=2)]. *)
Variable py_str : json -> string.
Variable json_dumps : json -> string.

(** The outside world of one request. *)
Variable net : oracle.

(** [f"{v}"] *)
Definition py_format (v : json) : string :=
  match v with
  | JStr s => s
  | _ => py_str v
  end.

Definition job_url (job_id : string) : string :=
  AVATAR_ENDPOINT +:+ "/avatar/batchsyntheses/" +:+ job_id
    +:+ "?api-version=" +:+ API_VERSION.

Definition create_avatar_job (text : string) (voice character style background : json)
  : M string :=
  let job_id := uuid4 net in
  let url := job_url job_id in
  let payload := job_payload text voice character style background in
  resp <- perform (EvPut url payload) (put_answer net);;
  if resp_status resp >=? 400
  then raise (RuntimeError ("Azure job creation failed [" +:+ pretty (resp_status resp)
                              +:+ "]: " +:+ resp_text resp))
  else ret job_id.

(** What one pass of the polling loop does with the reply it got, up to the
    [time.sleep]: [Some v] is [return v], [None] is going on. *)
Definition on_status_reply (url : string) (resp : http_reply) : result (option json) :=
  _ <~ raise_for_status url resp;;
  data <~ response_json resp;;
  status <~ py_get data "status" JNull;;
  if py_eq_str status "Succeeded" then
    outputs <~ py_get data "outputs" (JObj []);;
    video_url <~ py_get outputs "result" JNull;;
    if negb (truthy video_url)
    then Raise (RuntimeError "Job succeeded but no result URL found")
    else Ok (Some video_url)
  else if py_eq_str status "Failed" then
    Raise (RuntimeError ("Avatar job failed: " +:+ json_dumps data))
  else Ok None.

(** The [while] loop of [poll_avatar_job]; [k] counts the queries made. *)
Fixpoint poll_loop (fuel k : nat) (job_id url : string) (timeout interval deadline : Z)
  : M json :=
  now <- time_time;;
  if now <? deadline then
    match fuel with
    | O => lift Diverge
    | S fuel' =>
        resp <- perform (EvStatus url) (status_answer net k);;
        verdict <- on_status_reply url resp;;
        match verdict with
        | Some video_url => ret video_url
        | None =>
            time_sleep interval;;;
            poll_loop fuel' (S k) job_id url timeout interval deadline
        end
    end
  else
    raise (TimeoutError ("Avatar job " +:+ job_id +:+ " did not finish within "
                           +:+ pretty timeout +:+ "s")).

Definition poll_avatar_job (fuel : nat) (job_id : string) (timeout interval : Z) : M json :=
  let url := job_url job_id in
  now <- time_time;;
  let deadline := now + seconds timeout in
  poll_loop fuel O job_id url timeout interval deadline.

Definition download_file (url : json) : M string :=
  match url with
  | JStr u =>
      resp <- perform (EvDownload u) (download_answer net u);;
      raise_for_status u resp;;;
      tmp <- named_temporary_file (temp_name net);;
      match stream_error net with
      | Some why => raise (LibraryError ChunkedEncodingError why)
      | None => ret tmp
      end
  | _ =>
      raise (LibraryError MissingSchema
               ("Invalid URL '" +:+ py_str url
                  +:+ "': No scheme supplied. Perhaps you meant https://"
                  +:+ py_str url +:+ "?"))
  end.

(** [cloudinary.uploader.upload(file_path, ...)] *)
Definition cloudinary_upload (file_path : string) : M (list (string * json)) :=
  fun w =>
    let a := upload_result net in
    let w' := advance (Z.of_N (upload_took a)) w in
    let ev := EvUpload file_path (clock w) (clock w') a in
    match a with
    | Rejected _ why => (Raise (LibraryError CloudinaryError why), w', [ev])
    | Stored _ result => (Ok result, w', [ev])
    end.

Definition upload_to_cloudinary (file_path : string) : M json :=
  result <- cloudinary_upload file_path;;
  match assoc "secure_url" result with
  | Some v => ret v
  | None => raise (LibraryError KeyError "secure_url")
  end.

(** The [except] clauses of the route, in the order written. *)
Definition on_exception (e : exn) : response :=
  match e with
  | TimeoutError _ => error_response (exn_str e) 504
  | RuntimeError _ => error_response (exn_str e) 502
  | LibraryError _ _ => error_response ("Unexpected error: " +:+ exn_str e) 500
  end.

(** The fields of a request that passed every check. *)
Record job_request := {
  jr_text : string;
  jr_voice : json;
  jr_character : json;
  jr_style : json;
  jr_background : json
}.

(** The route function [generate_avatar] is written here in three parts, in
    the order of its text: [authorize] (the lines under "Auth"), [validate]
    (the lines under "Validate ...", up to the [try]), and [pipeline] (the
    body of the [try]). A [return] in the first two parts ends the route:
    [authorize] gives [Some r] and [validate] gives [inl r] for [return r]. *)

Definition authorize (req : request) : result (option response) :=
  key <~ provided_key req;;
  if negb (py_eq_str key API_KEY)
  then Ok (Some (error_response "Invalid or missing API key" 401))
  else Ok None.

Definition validate (req : request) : result (response + job_request) :=
  let data := request_data req in
  raw <~ py_get data "text" (JStr "");;
  text <~ py_strip raw;;
  if String.eqb text ""
  then Ok (inl (error_response "Missing 'text' field" 400))
  else
    voice <~ py_get data "voice" (JStr "th-TH-NiwatNeural");;
    character <~ py_get data "talkingAvatarCharacter" (JStr "harry");;
    style <~ py_get data "talkingAvatarStyle" (JStr "casual");;
    background <~ py_get data "background" JNull;;
    if negb (in_str_list voice ALL_VOICES)
    then Ok (inl (error_response ("Invalid voice '" +:+ py_format voice
                                    +:+ "'. See GET /voices for options.") 400))
    else
      known <~ dict_contains AVATARS character;;
      if negb known
      then Ok (inl (error_response ("Invalid character '" +:+ py_format character
                                      +:+ "'. See GET /models for options.") 400))
      else
        styles <~ dict_getitem AVATARS character (py_format character);;
        if negb (in_str_list style styles)
        then Ok (inl (error_response ("Invalid style '" +:+ py_format style
                                        +:+ "' for character '" +:+ py_format character
                                        +:+ "'. Valid: " +:+ repr_str_list styles) 400))
        else Ok (inr {| jr_text := text; jr_voice := voice; jr_character := character;
                        jr_style := style; jr_background := background |}).

Definition pipeline (fuel : nat) (j : job_request) : M response :=
  job_id <- create_avatar_job (jr_text j) (jr_voice j) (jr_character j) (jr_style j)
                              (jr_background j);;
  video_url <- poll_avatar_job fuel job_id 600 5;;
  local_path <- download_file video_url;;
  cloudinary_url <- upload_to_cloudinary local_path;;
  os_unlink local_path;;;
  ret {| code := 200;
         content := JObj [ ("success", JBool true);
                           ("video_url", cloudinary_url);
                           ("job_id", JStr job_id) ] |}.

(** The route function of [POST /generate-avatar]. *)
Definition generate_avatar (fuel : nat) (req : request) : M response :=
  auth <- authorize req;;
  match auth with
  | Some denied => ret denied
  | None =>
      checked <- validate req;;
      match checked with
      | inl invalid => ret invalid
      | inr j => try_except (pipeline fuel j) (fun e => ret (on_exception e))
      end
  end.

(** What the client of [POST /generate-avatar] gets: the route's response,
    or the error page Flask builds for an exception that left the route. *)
Inductive outcome :=
| Sent (r : response)
| ErrorPage (c : Z)
| NoResponse.

(** Flask turns an exception of werkzeug's into that exception's page, and
    any other into "500 Internal Server Error". *)
Definition error_page (e : exn) : outcome :=
  match e with
  | LibraryError BadRequest _ => ErrorPage 400
  | LibraryError UnsupportedMediaType _ => ErrorPage 415
  | _ => ErrorPage 500
  end.

Definition post_generate_avatar (fuel : nat) (req : request)
  : world -> outcome * world * list event :=
  fun w =>
    match generate_avatar fuel req w with
    | (Ok r, w', tr) => (Sent r, w', tr)
    | (Raise e, w', tr) => (error_page e, w', tr)
    | (Diverge, w', tr) => (NoResponse, w', tr)
    end.

Definition http_status (o : outcome) : option Z :=
  match o with
  | Sent r => Some (code r)
  | ErrorPage c => Some c
  | NoResponse => None
  end.

End Service.

(** ** Vocabulary of the statements *)

Definition ev_start (ev : event) : Z :=
  match ev with
  | EvPut _ _ t0 _ _ | EvStatus _ t0 _ _ | EvDownload _ t0 _ _ | EvUpload _ t0 _ _ => t0
  end.

Definition ev_end (ev : event) : Z :=
  match ev with
  | EvPut _ _ _ t1 _ | EvStatus _ _ t1 _ | EvDownload _ _ t1 _ | EvUpload _ _ t1 _ => t1
  end.

(** The event is a status query. *)
Definition is_status_query (ev : event) : bool :=
  match ev with
  | EvStatus _ _ _ _ => true
  | _ => false
  end.

(** The reply a status query got, if it got one. *)
Definition status_reply (ev : event) : option http_reply :=
  match ev with
  | EvStatus _ _ _ (Answer _ r) => Some r
  | _ => None
  end.

(** The job-creation call was answered with a status code of 400 or more. *)
Definition submission_failed (ev : event) : bool :=
  match ev with
  | EvPut _ _ _ _ (Answer _ r) => 400 <=? resp_status r
  | _ => false
  end.

(** The download was answered with an error status. *)
Definition download_failed (ev : event) : bool :=
  match ev with
  | EvDownload _ _ _ (Answer _ r) => is_http_error (resp_status r)
  | _ => false
  end.

(** The download was answered with a status that is not an error. *)
Definition download_answered (ev : event) : bool :=
  match ev with
  | EvDownload _ _ _ (Answer _ r) => negb (is_http_error (resp_status r))
  | _ => false
  end.

(** The media host rejected the upload. *)
Definition upload_failed (ev : event) : bool :=
  match ev with
  | EvUpload _ _ _ (Rejected _ _) => true
  | _ => false
  end.

(** The media host stored the file and named its secure URL. *)
Definition upload_returned (ev : event) : bool :=
  match ev with
  | EvUpload _ _ _ (Stored _ result) =>
      match assoc "secure_url" result with Some _ => true | None => false end
  | _ => false
  end.

(** The value the route reads for a field of the decoded body. *)
Definition field (fields : list (string * json)) (key : string) (default : json) : json :=
  match assoc key fields with
  | Some v => v
  | None => default
  end.

(** The value can be a dict key. *)
Definition hashable (v : json) : bool :=
  match v with
  | JArr _ | JObj _ => false
  | _ => true
  end.

(** The styles the catalog allows for a character, if it knows it. *)
Definition catalog_styles (character : json) : option (list string) :=
  match character with
  | JStr c => AVATARS !! c
  | _ => None
  end.

(** The reply is a JSON object and carries no error status. *)
Definition well_formed_reply (r : http_reply) (fields : list (string * json)) : Prop :=
  is_http_error (resp_status r) = false /\ resp_json r = Some (JObj fields).

(** The provider reports a job that is neither done nor failed. *)
Definition still_running (a : answer) : bool :=
  match a with
  | Answer _ r =>
      negb (is_http_error (resp_status r)) &&
      match resp_json r with
      | Some (JObj fields) =>
          match assoc "status" fields with
          | Some st => negb (py_eq_str st "Succeeded") && negb (py_eq_str st "Failed")
          | None => true
          end
      | _ => false
      end
  | NoAnswer _ _ => false
  end.

(** [status=Succeeded] with [outputs.result] set to [u]. *)
Definition reports_succeeded (r : http_reply) (u : json) : Prop :=
  exists fields outs,
    well_formed_reply r fields /\
    assoc "status" fields = Some (JStr "Succeeded") /\
    assoc "outputs" fields = Some (JObj outs) /\
    assoc "result" outs = Some u /\
    truthy u = true.

(** [status=Succeeded], [outputs] missing or an object, and no result URL in
    it ([result] missing, null or empty). *)
Definition reports_succeeded_empty (r : http_reply) : Prop :=
  exists fields,
    well_formed_reply r fields /\
    assoc "status" fields = Some (JStr "Succeeded") /\
    (assoc "outputs" fields = None \/
     exists outs, assoc "outputs" fields = Some (JObj outs) /\
                  match assoc "result" outs with
                  | Some u => truthy u = false
                  | None => True
                  end).

(** [status=Succeeded] with an [outputs] that is present and is no object
    (null, a string, a number, an array). *)
Definition reports_succeeded_untyped (r : http_reply) (v : json) : Prop :=
  exists fields,
    well_formed_reply r fields /\
    assoc "status" fields = Some (JStr "Succeeded") /\
    assoc "outputs" fields = Some v /\
    match v with JObj _ => False | _ => True end.

(** [status=Failed]; [data] is the decoded body. *)
Definition reports_failed (r : http_reply) (data : json) : Prop :=
  exists fields,
    well_formed_reply r fields /\ data = JObj fields /\
    assoc "status" fields = Some (JStr "Failed").

(** Consecutive events are separated by [d]: each starts [d] after the one
    before it ended. *)
Fixpoint spaced (d : Z) (tr : list event) : Prop :=
  match tr with
  | e1 :: ((e2 :: _) as rest) => ev_start e2 = ev_end e1 + d /\ spaced d rest
  | _ => True
  end.

Section RunShapes.

Variable py_str : json -> string.
Variable json_dumps : json -> string.
Variable net : oracle.

Definition timeout_error (job_id : string) (timeout : Z) : exn :=
  TimeoutError ("Avatar job " +:+ job_id +:+ " did not finish within "
                  +:+ pretty timeout +:+ "s").

(** What a pass of the loop makes of the answer to its query. *)
Definition reply_verdict (url : string) (a : answer) : result (option json) :=
  match a with
  | NoAnswer _ why => Raise (LibraryError ConnectionError why)
  | Answer _ r => on_status_reply json_dumps url r
  end.

(** The runs of the loop, read off its text: from query [k] at clock [t],
    the loop leaves the trace [tr], the result [res] and the clock [t']. *)
Fixpoint poll_run (job url : string) (timeout interval deadline : Z)
    (k : nat) (t : Z) (tr : list event) (res : result json) (t' : Z) : Prop :=
  match tr with
  | [] =>
      t' = t /\
      ((deadline <= t /\ res = Raise (timeout_error job timeout)) \/
       (t < deadline /\ res = Diverge))
  | ev :: rest =>
      let a := status_answer net k in
      let t1 := t + Z.of_N (took_of a) in
      t < deadline /\ ev = EvStatus url t t1 a /\
      match reply_verdict url a with
      | Ok (Some v) => rest = [] /\ res = Ok v /\ t' = t1
      | Ok None =>
          (interval < 0 /\ rest = [] /\ t' = t1 /\
           res = Raise (LibraryError ValueError "sleep length must be non-negative")) \/
          (0 <= interval /\
           poll_run job url timeout interval deadline (S k) (t1 + seconds interval) rest res t')
      | Raise e => rest = [] /\ res = Raise e /\ t' = t1
      | Diverge => False
      end
  end.

(** Steps 3 to 5 of the [try] body, for the job [job_id] and the URL the
    polling returned. *)
Definition deliver (job_id : string) (video_url : json) : M response :=
  local_path <- download_file py_str net video_url;;
  cloudinary_url <- upload_to_cloudinary net local_path;;
  os_unlink local_path;;;
  ret {| code := 200;
         content := JObj [ ("success", JBool true);
                           ("video_url", cloudinary_url);
                           ("job_id", JStr job_id) ] |}.

Definition with_temp_file (name : string) (w : world) : world :=
  {| clock := clock w; tmpfiles := {[ name ]} ∪ tmpfiles w |}.

Definition without_temp_file (name : string) (w : world) : world :=
  {| clock := clock w; tmpfiles := tmpfiles w ∖ {[ name ]} |}.

(** The clock at which query [k + n] is issued when query [k] is issued at
    [t] and the loop keeps going. *)
Fixpoint query_from (interval : Z) (k : nat) (t : Z) (n : nat) : Z :=
  match n with
  | O => t
  | S n' =>
      query_from interval (S k)
        (t + Z.of_N (took_of (status_answer net k)) + seconds interval) n'
  end.

End RunShapes.

(** ** Start-up and the read-only routes *)

(** The process environment after [load_dotenv()]. [os.getenv(var)] is the
    lookup [env !! var]. *)

(** The variables the module checks before it builds the app, in the order
    of the tuple. *)
Definition REQUIRED_VARS : list string :=
  [ "API_KEY"; "AZURE_SPEECH_KEY"; "AZURE_AVATAR_ENDPOINT";
    "CLOUDINARY_CLOUD_NAME"; "CLOUDINARY_API_KEY"; "CLOUDINARY_API_SECRET" ].

(** [not os.getenv(var)]: the variable is unset or empty. *)
Definition env_missing (env : gmap string string) (var : string) : bool :=
  match env !! var with
  | Some v => String.eqb v ""
  | None => true
  end.

(** The [for var in (...)] loop. *)
Fixpoint check_env (env : gmap string string) (vars : list string) : result unit :=
  match vars with
  | [] => Ok tt
  | var :: rest =>
      if env_missing env var
      then Raise (RuntimeError ("Missing env var: " +:+ var))
      else check_env env rest
  end.

(** [s.rstrip(chars)] for the characters that satisfy [strippable]. *)
Fixpoint rstrip_by (strippable : Ascii.ascii -> bool) (s : string) : string :=
  match s with
  | EmptyString => EmptyString
  | String c s' =>
      match rstrip_by strippable s' with
      | EmptyString => if strippable c then EmptyString else String c EmptyString
      | r => String c r
      end
  end.

(** The character is ["/"] (code point 47). *)
Definition is_slash (c : Ascii.ascii) : bool := (Ascii.N_of_ascii c =? 47)%N.

(** What the module binds before the app is built. *)
Record config := {
  cfg_api_key : option string;          (* API_KEY *)
  cfg_speech_key : option string;       (* SPEECH_KEY *)
  cfg_endpoint : string;                (* AVATAR_ENDPOINT *)
  cfg_cloud_name : option string;       (* cloudinary.config(cloud_name=...) *)
  cfg_cloud_key : option string;        (* cloudinary.config(api_key=...) *)
  cfg_cloud_secret : option string      (* cloudinary.config(api_secret=...) *)
}.

(** The module's top level, from [API_KEY = ...] to the end of the check. *)
Definition load_config (env : gmap string string) : result config :=
  let api_key := env !! "API_KEY" in
  let speech_key := env !! "AZURE_SPEECH_KEY" in
  let endpoint :=
    rstrip_by is_slash (match env !! "AZURE_AVATAR_ENDPOINT" with
                        | Some v => v
                        | None => ""
                        end) in
  let cloud_name := env !! "CLOUDINARY_CLOUD_NAME" in
  let cloud_key := env !! "CLOUDINARY_API_KEY" in
  let cloud_secret := env !! "CLOUDINARY_API_SECRET" in
  _ <~ check_env env REQUIRED_VARS;;
  Ok {| cfg_api_key := api_key; cfg_speech_key := speech_key; cfg_endpoint := endpoint;
        cfg_cloud_name := cloud_name; cfg_cloud_key := cloud_key;
        cfg_cloud_secret := cloud_secret |}.

(** [jsonify] of a list of strings. *)
Definition json_strings (l : list string) : json := JArr (map JStr l).

(** [GET /health] *)
Definition health : response :=
  {| code := 200; content := JObj [("status", JStr "ok")] |}.

(** [GET /models]: the catalog as it is (the order of the keys in the
    object plays no part below). *)
Definition models : response :=
  {| code := 200;
     content := JObj [("avatars",
                       JObj (map (fun cs => (cs.1, json_strings cs.2))
                               (map_to_list AVATARS)))] |}.

(** [GET /voices] *)
Definition voices : response :=
  {| code := 200;
     content := JObj [("voices",
                       JObj (map (fun gv => (gv.1, json_strings gv.2)) VOICES))] |}.

(** Every character of the string is a slash. *)
Fixpoint all_slash (s : string) : bool :=
  match s with
  | EmptyString => true
  | String c s' => is_slash c && all_slash s'
  end.

(** The event is the job-creation call. *)
Definition is_put (ev : event) : bool :=
  match ev with
  | EvPut _ _ _ _ _ => true
  | _ => false
  end.

(** The event is the download or the upload. *)
Definition is_transfer (ev : event) : bool :=
  match ev with
  | EvDownload _ _ _ _ | EvUpload _ _ _ _ => true
  | _ => false
  end.

(** The event is a status query sent to [url]. *)
Definition is_query_of (url : string) (ev : event) : bool :=
  match ev with
  | EvStatus u _ _ _ => String.eqb u url
  | _ => false
  end.


(** The status codes the route itself answers with. *)
Definition route_codes : list Z := [200; 400; 401; 500; 502; 504].

(** The status codes of the error pages Flask answers with. *)
Definition page_codes : list Z := [400; 415; 500].

(** ** Worked inputs

    Concrete requests and outside worlds on which the statements below are
    run. None of them formats a value that is not a string, so the two
    renderings are stood in for by [no_rendering]. *)

Definition sample_key : string := "s3cret".

Definition sample_endpoint : string := "https://avatar.example".

Definition no_rendering (v : json) : string := "".

Definition reply (c : Z) (why txt : string) (decoded : option json) : http_reply :=
  {| resp_status := c; resp_reason := why; resp_text := txt; resp_json := decoded |}.

Definition pending_body : json := JObj [("status", JStr "Pending")].

Definition succeeded_body (u : string) : json :=
  JObj [("status", JStr "Succeeded"); ("outputs", JObj [("result", JStr u)])].

(** [Succeeded], with [outputs] present but null. *)
Definition null_outputs_body : json :=
  JObj [("status", JStr "Succeeded"); ("outputs", JNull)].

Definition sample_oracle (put : answer) (status : nat -> answer) (download : answer)
    (upload : upload_answer) : oracle :=
  {| uuid4 := "job-1";
     put_answer := put;
     status_answer := status;
     download_answer := fun _ => download;
     stream_error := None;
     temp_name := "/tmp/tmpq1.mp4";
     upload_result := upload |}.

Definition accepted : answer := Answer 40 (reply 201 "Created" "" None).

Definition video_ready : answer := Answer 30 (reply 200 "OK" "" None).

Definition hosted : upload_answer :=
  Stored 50 [("secure_url", JStr "https://media.example/v.mp4")].

(** Two [Pending] replies, then [Succeeded]. *)
Definition third_time (k : nat) : answer :=
  if (k <? 2)%nat
  then Answer 20 (reply 200 "OK" "" (Some pending_body))
  else Answer 20 (reply 200 "OK" "" (Some (succeeded_body "https://provider.example/v.mp4"))).

Definition always_pending (k : nat) : answer :=
  Answer 20 (reply 200 "OK" "" (Some pending_body)).

(** Everything goes well, on the third status query. *)
Definition net_happy : oracle := sample_oracle accepted third_time video_ready hosted.

(** The provider never finishes the job. *)
Definition net_never : oracle := sample_oracle accepted always_pending video_ready hosted.

(** The provider refuses the job. *)
Definition net_busy : oracle :=
  sample_oracle (Answer 40 (reply 503 "Service Unavailable" "try later" None)) third_time video_ready hosted.

(** The result URL answers 404. *)
Definition net_gone : oracle :=
  sample_oracle accepted third_time (Answer 30 (reply 404 "Not Found" "" None)) hosted.

(** The media host rejects the upload. *)
Definition net_full : oracle :=
  sample_oracle accepted third_time video_ready (Rejected 50 "File size too large").

(** The provider reports success with a null [outputs]. *)
Definition net_null_outputs : oracle :=
  sample_oracle accepted (fun _ => Answer 20 (reply 200 "OK" "" (Some null_outputs_body)))
    video_ready hosted.

Definition world0 : world := {| clock := 0; tmpfiles := ∅ |}.

Definition keyed (fields : list (string * json)) : request :=
  {| x_api_key := Some sample_key; body := Decoded (JObj fields) |}.

Definition req_hello : request := keyed [("text", JStr "hello")].

Definition req_blank : request := keyed [("text", JStr "   ")].

Definition req_robot : request := keyed [("text", JStr "hello"); ("voice", JStr "robot")].

(** Names a character, omits voice and style. *)
Definition req_jeff : request :=
  keyed [("text", JStr "hello"); ("talkingAvatarCharacter", JStr "jeff")].

(** The character is a JSON array. *)
Definition req_array_character : request :=
  keyed [("text", JStr "hello"); ("talkingAvatarCharacter", JArr [JStr "harry"])].

Definition failed_body : json :=
  JObj [("status", JStr "Failed"); ("error", JStr "synthesis failed")].

(** The provider reports the job failed, on the first query. *)
Definition net_failed : oracle :=
  sample_oracle accepted (fun _ => Answer 20 (reply 200 "OK" "" (Some failed_body)))
    video_ready hosted.

(** The provider answers the first status query with 503. *)
Definition net_unavailable : oracle :=
  sample_oracle accepted
    (fun _ => Answer 20 (reply 503 "Service Unavailable" "" None)) video_ready hosted.

(** Gives a background image. *)
Definition req_backdrop : request :=
  keyed [("text", JStr "hello"); ("background", JStr "https://media.example/bg.png")].

(** An environment with every variable set; the endpoint ends in slashes. *)
Definition sample_env : gmap string string :=
  list_to_map
    [ ("API_KEY", sample_key);
      ("AZURE_SPEECH_KEY", "speech-key");
      ("AZURE_AVATAR_ENDPOINT", "https://avatar.example//");
      ("CLOUDINARY_CLOUD_NAME", "cloud");
      ("CLOUDINARY_API_KEY", "cloud-key");
      ("CLOUDINARY_API_SECRET", "cloud-secret") ].

Definition sample_config : config :=
  {| cfg_api_key := Some sample_key;
     cfg_speech_key := Some "speech-key";
     cfg_endpoint := sample_endpoint;
     cfg_cloud_name := Some "cloud";
     cfg_cloud_key := Some "cloud-key";
     cfg_cloud_secret := Some "cloud-secret" |}.

(** A Thai text between white space of one, two and three bytes (a space,
    U+00A0, U+2003 and U+3000); its last letter ends in the byte A0. *)
Definition thai_text : string := "สวัสดีภ".

Definition padded_thai_text : string :=
  utf8 [0x20; 0x2003]%N +:+ thai_text +:+ utf8 [0xA0; 0x3000; 0x0A]%N.

Definition req_thai : request := keyed [("text", JStr padded_thai_text)].

Definition req_thai_robot : request :=
  keyed [("text", JStr padded_thai_text); ("voice", JStr "robot")].

(** The text is white space that is not ASCII: U+2003 and U+3000. *)
Definition req_wide_blank : request := keyed [("text", JStr (utf8 [0x2003; 0x3000]%N))].

(** The voice is a JSON array; the style is a JSON array. *)
Definition req_array_voice : request :=
  keyed [("text", JStr "hello"); ("voice", JArr [JStr "th-TH-NiwatNeural"])].

Definition req_array_style : request :=
  keyed [("text", JStr "hello"); ("talkingAvatarStyle", JArr [JStr "casual"])].

(** [Succeeded], with no [outputs] at all. *)
Definition no_outputs_body : json := JObj [("status", JStr "Succeeded")].

Definition net_no_outputs : oracle :=
  sample_oracle accepted (fun _ => Answer 20 (reply 200 "OK" "" (Some no_outputs_body)))
    video_ready hosted.

Definition thai_job : job_request :=
  {| jr_text := thai_text; jr_voice := JStr "th-TH-NiwatNeural";
     jr_character := JStr "harry"; jr_style := JStr "casual";
     jr_background := JNull |}.

Definition hello_job : job_request :=
  {| jr_text := "hello"; jr_voice := JStr "th-TH-NiwatNeural";
     jr_character := JStr "harry"; jr_style := JStr "casual";
     jr_background := JNull |}.

Definition serve (net : oracle) (fuel : nat) (req : request) : outcome * world * list event :=
  post_generate_avatar sample_key sample_endpoint no_rendering no_rendering net fuel req world0.

(** ** Strings *)

Lemma append_nil_l (a : string) : "" +:+ a = a.
Proof. reflexivity. Qed.

Lemma append_cons (c : Ascii.ascii) (a b : string) :
  String c a +:+ b = String c (a +:+ b).
Proof. reflexivity. Qed.

Lemma append_assoc (a b c : string) : (a +:+ b) +:+ c = a +:+ b +:+ c.
Proof.
  induction a as [|x a IH]; [reflexivity|].
  rewrite !append_cons. by rewrite IH.
Qed.

Lemma prefix_append (n b : string) : String.prefix n (n +:+ b) = true.
Proof.
  induction n as [|c n IH].
  - by destruct b.
  - rewrite append_cons. simpl.
    destruct (Ascii.ascii_dec c c); [exact IH | congruence].
Qed.

Lemma prefix_substringb (n h : string) :
  String.prefix n h = true -> substringb n h = true.
Proof. intros H. destruct h; cbn [substringb]; rewrite H; reflexivity. Qed.

Lemma substringb_append (a n b : string) : substringb n (a +:+ n +:+ b) = true.
Proof.
  induction a as [|c a IH].
  - rewrite append_nil_l. apply prefix_substringb, prefix_append.
  - rewrite append_cons. simpl. rewrite IH. apply orb_true_r.
Qed.

Lemma substringb_append_r (a n : string) : substringb n (a +:+ n) = true.
Proof.
  induction a as [|c a IH].
  - rewrite append_nil_l. apply prefix_substringb.
    induction n as [|c n IH]; simpl; [reflexivity|].
    destruct (Ascii.ascii_dec c c); [exact IH | congruence].
  - rewrite append_cons. simpl. rewrite IH. apply orb_true_r.
Qed.

Lemma lstrip_eq (s : string) :
  lstrip s = match drop_space s with Some r => lstrip r | None => s end.
Proof.
  destruct s as [|a [|b [|c s]]]; cbn [lstrip drop_space]; try reflexivity.
  - by destruct (is_space (point1 a)).
  - destruct (is_space (point1 a)); [reflexivity|].
    by destruct (is_space (point2 a b)).
  - destruct (is_space (point1 a)); [reflexivity|].
    destruct (is_space (point2 a b)); [reflexivity|].
    by destruct (is_space (point3 a b c)).
Qed.

Lemma all_space_eq (s : string) :
  all_space s = match s with
                | EmptyString => true
                | _ => match drop_space s with Some r => all_space r | None => false end
                end.
Proof.
  destruct s as [|a [|b [|c s]]]; cbn [all_space drop_space]; try reflexivity.
  - by destruct (is_space (point1 a)).
  - destruct (is_space (point1 a)); [reflexivity|].
    by destruct (is_space (point2 a b)).
  - destruct (is_space (point1 a)); [reflexivity|].
    destruct (is_space (point2 a b)); [reflexivity|].
    by destruct (is_space (point3 a b c)).
Qed.

Lemma rstrip_eq (a : Ascii.ascii) (s : string) :
  rstrip (String a s) = if all_space (String a s) then "" else String a (rstrip s).
Proof. reflexivity. Qed.

Lemma drop_space_length (s r : string) :
  drop_space s = Some r -> (String.length r < String.length s)%nat.
Proof.
  destruct s as [|a [|b [|c s]]]; cbn [drop_space String.length]; intros H;
    repeat case_match; simplify_eq; cbn [String.length]; lia.
Qed.

Lemma string_length_ind (P : string -> Prop) :
  (forall s, (forall r, (String.length r < String.length s)%nat -> P r) -> P s) ->
  forall s, P s.
Proof.
  intros H s. remember (String.length s) as n eqn:E.
  revert s E. induction (lt_wf n) as [n _ IH]. intros s ->.
  apply H. intros r Hr. by apply (IH (String.length r)).
Qed.

Lemma lstrip_head (s : string) : drop_space (lstrip s) = None.
Proof.
  induction s as [s IH] using string_length_ind.
  rewrite lstrip_eq. destruct (drop_space s) as [r|] eqn:E; [|exact E].
  apply IH. by apply drop_space_length.
Qed.

Lemma lstrip_empty (s : string) : lstrip s = "" <-> all_space s = true.
Proof.
  induction s as [s IH] using string_length_ind.
  rewrite lstrip_eq, all_space_eq. destruct s as [|a s]; [done|].
  destruct (drop_space (String a s)) as [r|] eqn:E; [|done].
  apply IH. by apply drop_space_length.
Qed.

Lemma rstrip_empty (s : string) : rstrip s = "" <-> all_space s = true.
Proof.
  destruct s as [|a s]; [done|]. rewrite rstrip_eq.
  by destruct (all_space (String a s)).
Qed.

Lemma strip_empty (s : string) : strip s = "" <-> all_space s = true.
Proof.
  unfold strip. rewrite rstrip_empty. split.
  - intros H. apply lstrip_empty.
    pose proof (lstrip_head s) as Hh. rewrite all_space_eq in H.
    destruct (lstrip s) as [|a r]; [done|]. by rewrite Hh in H.
  - intros H. by rewrite (proj2 (lstrip_empty s) H).
Qed.






Ltac decide_N :=
  repeat match goal with
  | |- context [(?a <=? ?b)%N] =>
      first [ rewrite (proj2 (N.leb_le a b)) by lia | rewrite (proj2 (N.leb_gt a b)) by lia ]
  | |- context [(?a <? ?b)%N] =>
      first [ rewrite (proj2 (N.ltb_lt a b)) by lia | rewrite (proj2 (N.ltb_ge a b)) by lia ]
  end.

Lemma py_isspace_small (n : N) : py_isspace n = true -> (n <= 0x3000)%N.
Proof.
  unfold py_isspace. intros H.
  repeat (apply orb_true_iff in H as [H|H]);
    repeat (apply andb_true_iff in H as [? H]);
    repeat match goal with
           | H : (_ <=? _)%N = true |- _ => apply N.leb_le in H
           | H : (_ =? _)%N = true |- _ => apply N.eqb_eq in H
           end; lia.
Qed.

Lemma byte_code (k : N) : (k < 256)%N -> Ascii.N_of_ascii (Ascii.ascii_of_N k) = k.
Proof. apply Ascii.N_ascii_embedding. Qed.

(** A continuation byte starts no character. *)
Lemma drop_space_continuation (b : Ascii.ascii) (s : string) :
  continuation b = true -> drop_space (String b s) = None.
Proof.
  unfold continuation. cbv zeta. intros H.
  apply andb_true_iff in H as [H1 H2]. apply N.leb_le in H1, H2.
  cbn [drop_space]. unfold point1, point2, point3. cbv zeta.
  set (n := Ascii.N_of_ascii b) in *.
  decide_N. cbn [andb is_space].
  destruct s as [|c [|d s]]; reflexivity.
Qed.

(** On the encoding of a character, [drop_space] is [str.isspace]. *)
Lemma drop_space_utf8_char (n : N) (r : string) :
  code_point n ->
  drop_space (utf8_char n +:+ r) = if py_isspace n then Some r else None.
Proof.
  unfold code_point. intros Hn. unfold utf8_char. cbv zeta.
  pose proof (N.Div0.div_mod n 64) as D0.
  pose proof (N.mod_lt n 64 ltac:(lia)) as M0.
  pose proof (N.Div0.div_mod (n / 64) 64) as D1.
  pose proof (N.mod_lt (n / 64) 64 ltac:(lia)) as M1.
  pose proof (N.Div0.div_div n 64 64) as Q2. change (64 * 64)%N with 4096%N in Q2.
  pose proof (N.Div0.div_mod (n / 4096) 64) as D2.
  pose proof (N.mod_lt (n / 4096) 64 ltac:(lia)) as M2.
  pose proof (N.Div0.div_div n 4096 64) as Q3. change (4096 * 64)%N with 262144%N in Q3.
  rewrite Q2 in D1.
  set (q1 := (n / 64)%N) in *. set (m0 := (n mod 64)%N) in *.
  set (q2 := (n / 4096)%N) in *. set (m1 := (q1 mod 64)%N) in *.
  set (q3 := (n / 262144)%N) in *. set (m2 := (q2 mod 64)%N) in *.
  rewrite Q3 in D2.
  destruct (N.ltb_spec n 0x80) as [H1|H1].
  { rewrite append_cons, append_nil_l. cbn [drop_space]. unfold point1. cbv zeta.
    rewrite byte_code by lia. decide_N. cbn [is_space].
    destruct (py_isspace n); [reflexivity|].
    unfold point2, point3. cbv zeta. rewrite !byte_code by lia. decide_N.
    cbn [andb is_space]. destruct r as [|b [|c r]]; reflexivity. }
  destruct (N.ltb_spec n 0x800) as [H2|H2].
  { rewrite !append_cons, append_nil_l. cbn [drop_space].
    unfold point1, point2, point3, continuation. cbv zeta.
    rewrite !byte_code by lia. decide_N. cbn [andb is_space].
    replace ((192 + q1 - 192) * 64 + (128 + m0 - 128))%N with n by lia.
    destruct (py_isspace n); [reflexivity|]. destruct r; reflexivity. }
  destruct (N.ltb_spec n 0x10000) as [H3|H3].
  { rewrite !append_cons, append_nil_l. cbn [drop_space].
    unfold point1, point2, point3, continuation. cbv zeta.
    rewrite !byte_code by lia. decide_N. cbn [andb is_space].
    replace ((224 + q2 - 224) * 4096 + (128 + m1 - 128) * 64 + (128 + m0 - 128))%N
      with n by lia.
    decide_N. cbn [is_space]. reflexivity. }
  rewrite !append_cons, append_nil_l. cbn [drop_space].
  unfold point1, point2, point3, continuation. cbv zeta.
  rewrite !byte_code by lia. decide_N. cbn [andb is_space].
  destruct (py_isspace n) eqn:E; [|reflexivity].
  apply py_isspace_small in E. lia.
Qed.

(** The encoding of a character is a first byte and continuation bytes. *)
Lemma utf8_char_shape (n : N) :
  code_point n -> exists a u, utf8_char n = String a u /\ continuations u = true.
Proof.
  unfold code_point. intros Hn. unfold utf8_char. cbv zeta.
  pose proof (N.mod_lt n 64 ltac:(lia)) as M0.
  pose proof (N.mod_lt (n / 64) 64 ltac:(lia)) as M1.
  pose proof (N.mod_lt (n / 4096) 64 ltac:(lia)) as M2.
  assert (C : forall m, (m < 64)%N -> continuation (Ascii.ascii_of_N (0x80 + m)) = true).
  { intros m Hm. unfold continuation. cbv zeta. rewrite byte_code by lia.
    decide_N. reflexivity. }
  repeat case_match; eexists _, _; (split; [reflexivity|]);
    cbn [continuations]; rewrite ?C by assumption; reflexivity.
Qed.

Lemma rstrip_continuations (u r : string) :
  continuations u = true -> rstrip (u +:+ r) = u +:+ rstrip r.
Proof.
  induction u as [|b u IH]; [done|]. cbn [continuations].
  intros [Hb Hu]%andb_true_iff. rewrite !append_cons, rstrip_eq, all_space_eq.
  rewrite (drop_space_continuation b _ Hb). by rewrite IH.
Qed.

Lemma rstrip_utf8_char (n : N) (r : string) :
  code_point n ->
  rstrip (utf8_char n +:+ r)
    = if all_space (utf8_char n +:+ r) then "" else utf8_char n +:+ rstrip r.
Proof.
  intros Hn. destruct (utf8_char_shape n Hn) as (a & u & -> & Hu).
  rewrite !append_cons, rstrip_eq. by rewrite (rstrip_continuations u r Hu).
Qed.

Lemma lstrip_utf8 (t : list N) :
  Forall code_point t -> lstrip (utf8 t) = utf8 (str_lstrip t).
Proof.
  induction 1 as [|n t Hn _ IH]; [reflexivity|]. cbn [utf8 str_lstrip].
  rewrite lstrip_eq, (drop_space_utf8_char n _ Hn).
  by destruct (py_isspace n).
Qed.

Lemma all_space_utf8 (t : list N) :
  Forall code_point t -> all_space (utf8 t) = forallb py_isspace t.
Proof.
  induction 1 as [|n t Hn _ IH]; [reflexivity|]. cbn [utf8 forallb].
  rewrite all_space_eq, (drop_space_utf8_char n _ Hn).
  destruct (utf8_char_shape n Hn) as (a & u & -> & _). rewrite append_cons.
  by destruct (py_isspace n).
Qed.

Lemma rstrip_utf8 (t : list N) :
  Forall code_point t -> rstrip (utf8 t) = utf8 (str_rstrip t).
Proof.
  induction 1 as [|n t Hn Ht IH]; [reflexivity|].
  change (utf8 (n :: t)) with (utf8_char n +:+ utf8 t).
  rewrite (rstrip_utf8_char n _ Hn).
  change (utf8_char n +:+ utf8 t) with (utf8 (n :: t)).
  rewrite (all_space_utf8 (n :: t)) by (by constructor).
  cbn [str_rstrip]. destruct (forallb py_isspace (n :: t)); [reflexivity|].
  cbn [utf8]. by rewrite IH.
Qed.

Lemma str_lstrip_valid (t : list N) :
  Forall code_point t -> Forall code_point (str_lstrip t).
Proof.
  induction 1 as [|n t Hn Ht IH]; [constructor|]. cbn [str_lstrip].
  destruct (py_isspace n); [exact IH|by constructor].
Qed.

(** [strip] on the encoding of a text is the encoding of the text without
    the white space at its two ends. *)
Theorem strip_utf8 (t : list N) :
  Forall code_point t -> strip (utf8 t) = utf8 (str_strip t).
Proof.
  intros Ht. unfold strip, str_strip.
  rewrite (lstrip_utf8 t Ht). apply rstrip_utf8. by apply str_lstrip_valid.
Qed.

(** ** Job creation *)

Section Creation.

Variable AVATAR_ENDPOINT : string.
Variable net : oracle.

(** C8. When the provider answers the job-creation call with a status code
    of 400 or more, [create_avatar_job] raises, and the message holds the
    status code and the response body as they came; with any status code
    below 400 it returns the job id. *)
Theorem create_avatar_job_status
    (text : string) (voice character style background : json) (w : world)
    (took : N) (r : http_reply) :
  put_answer net = Answer took r ->
  (400 <= resp_status r ->
   exists msg,
     (create_avatar_job AVATAR_ENDPOINT net text voice character style background w).1.1
       = Raise (RuntimeError msg) /\
     substringb (pretty (resp_status r)) msg = true /\
     substringb (resp_text r) msg = true) /\
  (resp_status r < 400 ->
   (create_avatar_job AVATAR_ENDPOINT net text voice character style background w).1.1
     = Ok (uuid4 net)).
Proof.
  intros Hput. unfold create_avatar_job, bind, perform. rewrite Hput. cbn [fst].
  split; intros Hcode.
  - assert (E : (resp_status r >=? 400) = true) by lia.
    rewrite E. cbn.
    eexists. split; [reflexivity|]. split.
    + apply (substringb_append "Azure job creation failed [").
    + rewrite <- !append_assoc. apply substringb_append_r.
  - assert (E : (resp_status r >=? 400) = false) by lia.
    rewrite E. reflexivity.
Qed.

End Creation.

(** ** Polling *)

Section Polling.

Variable AVATAR_ENDPOINT : string.
Variable json_dumps : json -> string.
Variable net : oracle.

Lemma poll_loop_eq (fuel k : nat) (job url : string) (timeout interval deadline : Z) (w : world) :
  poll_loop json_dumps net fuel k job url timeout interval deadline w =
  if clock w <? deadline then
    match fuel with
    | O => (Diverge, w, [])
    | S fuel' =>
        let a := status_answer net k in
        let w1 := advance (Z.of_N (took_of a)) w in
        let ev := EvStatus url (clock w) (clock w1) a in
        match reply_verdict json_dumps url a with
        | Ok (Some v) => (Ok v, w1, [ev])
        | Ok None =>
            if interval <? 0
            then (Raise (LibraryError ValueError "sleep length must be non-negative"), w1, [ev])
            else
              match poll_loop json_dumps net fuel' (S k) job url timeout interval deadline
                      (advance (seconds interval) w1) with
              | (r, w2, tr2) => (r, w2, ev :: tr2)
              end
        | Raise e => (Raise e, w1, [ev])
        | Diverge => (Diverge, w1, [ev])
        end
    end
  else (Raise (timeout_error job timeout), w, []).
Proof.
  destruct fuel as [|fuel']; cbn [poll_loop]; unfold bind, time_time; cbn [clock].
  - destruct (clock w <? deadline); reflexivity.
  - destruct (clock w <? deadline); [|reflexivity].
    unfold perform, reply_verdict.
    destruct (status_answer net k) as [took why|took r]; [reflexivity|].
    cbn [took_of]. unfold lift at 1.
    destruct (on_status_reply json_dumps url r) as [[v|]|e|]; try reflexivity.
    unfold time_sleep. destruct (interval <? 0); [reflexivity|].
    destruct (poll_loop _ _ _ _ _ _ _ _ _ _) as [[r2 w2] tr2]. reflexivity.
Qed.

Lemma raise_for_status_ok (url : string) (r : http_reply) :
  is_http_error (resp_status r) = false -> raise_for_status url r = Ok tt.
Proof.
  unfold is_http_error, raise_for_status. cbv zeta.
  destruct (Z.leb_spec 400 (resp_status r)), (Z.ltb_spec (resp_status r) 500),
    (Z.leb_spec 500 (resp_status r)), (Z.ltb_spec (resp_status r) 600);
    cbn; intros; try discriminate; try lia; reflexivity.
Qed.

Lemma raise_for_status_error (url : string) (r : http_reply) :
  is_http_error (resp_status r) = true ->
  exists msg, raise_for_status url r = Raise (LibraryError HTTPError msg).
Proof.
  unfold is_http_error, raise_for_status. cbv zeta.
  destruct (Z.leb_spec 400 (resp_status r)), (Z.ltb_spec (resp_status r) 500),
    (Z.leb_spec 500 (resp_status r)), (Z.ltb_spec (resp_status r) 600);
    cbn; intros; try discriminate; try lia; eauto.
Qed.

Lemma on_status_reply_never_diverges (url : string) (r : http_reply) :
  on_status_reply json_dumps url r <> Diverge.
Proof.
  unfold on_status_reply, raise_for_status, response_json, py_get, rbind.
  repeat case_match; congruence.
Qed.

Lemma on_status_reply_running (url : string) (took : N) (r : http_reply) :
  still_running (Answer took r) = true -> on_status_reply json_dumps url r = Ok None.
Proof.
  unfold still_running. intros H.
  apply andb_true_iff in H as [H1 H2]. apply negb_true_iff in H1.
  unfold on_status_reply. rewrite (raise_for_status_ok url r H1).
  unfold response_json. destruct (resp_json r) as [[| | | | | |fields]|]; try discriminate.
  cbn [rbind py_get]. destruct (assoc "status" fields) as [st|].
  - apply andb_true_iff in H2 as [Ha Hb].
    apply negb_true_iff in Ha, Hb. by rewrite Ha, Hb.
  - reflexivity.
Qed.

Lemma on_status_reply_succeeded (url : string) (r : http_reply) (u : json) :
  reports_succeeded r u -> on_status_reply json_dumps url r = Ok (Some u).
Proof.
  intros (fields & outs & [Hc Hj] & Hst & Hout & Hres & Htr).
  unfold on_status_reply. rewrite (raise_for_status_ok url r Hc).
  unfold response_json. rewrite Hj. cbn [rbind py_get]. rewrite Hst. cbn [py_eq_str].
  change (String.eqb "Succeeded" "Succeeded") with true. cbn match.
  rewrite Hout. cbn [rbind py_get]. rewrite Hres, Htr. reflexivity.
Qed.

Lemma on_status_reply_empty (url : string) (r : http_reply) :
  reports_succeeded_empty r ->
  on_status_reply json_dumps url r
    = Raise (RuntimeError "Job succeeded but no result URL found").
Proof.
  intros (fields & [Hc Hj] & Hst & Hout).
  unfold on_status_reply. rewrite (raise_for_status_ok url r Hc).
  unfold response_json. rewrite Hj. cbn [rbind py_get]. rewrite Hst. cbn [py_eq_str].
  change (String.eqb "Succeeded" "Succeeded") with true. cbn match.
  destruct Hout as [Hout|(outs & Hout & Hres)]; rewrite Hout; cbn [rbind py_get assoc].
  - reflexivity.
  - destruct (assoc "result" outs) as [u|]; [by rewrite Hres | reflexivity].
Qed.

Lemma on_status_reply_untyped (url : string) (r : http_reply) (v : json) :
  reports_succeeded_untyped r v ->
  on_status_reply json_dumps url r
    = Raise (LibraryError AttributeError
               ("'" +:+ type_name v +:+ "' object has no attribute 'get'")).
Proof.
  intros (fields & [Hc Hj] & Hst & Hout & Hv).
  unfold on_status_reply. rewrite (raise_for_status_ok url r Hc).
  unfold response_json. rewrite Hj. cbn [rbind py_get]. rewrite Hst. cbn [py_eq_str].
  change (String.eqb "Succeeded" "Succeeded") with true. cbn match.
  rewrite Hout. by destruct v.
Qed.

Lemma on_status_reply_failed (url : string) (r : http_reply) (data : json) :
  reports_failed r data ->
  on_status_reply json_dumps url r
    = Raise (RuntimeError ("Avatar job failed: " +:+ json_dumps data)).
Proof.
  intros (fields & [Hc Hj] & -> & Hst).
  unfold on_status_reply. rewrite (raise_for_status_ok url r Hc).
  unfold response_json. rewrite Hj. cbn [rbind py_get]. rewrite Hst. reflexivity.
Qed.

Lemma on_status_reply_returns (url : string) (r : http_reply) (u : json) :
  on_status_reply json_dumps url r = Ok (Some u) -> reports_succeeded r u.
Proof.
  unfold on_status_reply. intros H.
  destruct (is_http_error (resp_status r)) eqn:Hc.
  { destruct (raise_for_status_error url r Hc) as [msg E]. by rewrite E in H. }
  rewrite (raise_for_status_ok url r Hc) in H. unfold response_json in H.
  destruct (resp_json r) as [[| | | | | |fields]|] eqn:Hj; try discriminate.
  cbn [rbind py_get] in H.
  destruct (assoc "status" fields) as [st|] eqn:Hst; [|discriminate].
  destruct (py_eq_str st "Succeeded") eqn:Est.
  - destruct st as [| | | |s| |]; try discriminate.
    apply String.eqb_eq in Est as ->.
    destruct (assoc "outputs" fields) as [[| | | | | |outs]|] eqn:Hout; try discriminate.
    cbn [rbind py_get] in H.
    destruct (assoc "result" outs) as [v|] eqn:Hres; [|discriminate].
    destruct (truthy v) eqn:Hv; [|discriminate].
    injection H as ->. by exists fields, outs.
  - destruct (py_eq_str st "Failed"); discriminate.
Qed.

Lemma poll_loop_run (job url : string) (timeout interval deadline : Z) (fuel : nat) :
  forall (k : nat) (w w' : world) (res : result json) (tr : list event),
    poll_loop json_dumps net fuel k job url timeout interval deadline w = (res, w', tr) ->
    poll_run json_dumps net job url timeout interval deadline k (clock w) tr res (clock w') /\
    tmpfiles w' = tmpfiles w.
Proof.
  induction fuel as [|fuel IH]; intros k w w' res tr; rewrite poll_loop_eq.
  - destruct (clock w <? deadline) eqn:E; intros [= <- <- <-]; cbn [poll_run];
      (split_and!; [reflexivity| |reflexivity]); [right|left]; split; auto; lia.
  - destruct (clock w <? deadline) eqn:E.
    2:{ intros [= <- <- <-]. cbn [poll_run]. split_and!; auto. left. split; auto. lia. }
    cbv zeta.
    destruct (reply_verdict json_dumps url (status_answer net k)) as [[v|]|e|] eqn:V.
    + intros [= <- <- <-]. cbn [poll_run]. cbv zeta. rewrite V.
      cbn [clock advance tmpfiles]. split_and!; auto; lia.
    + destruct (interval <? 0) eqn:EI.
      * intros [= <- <- <-]. cbn [poll_run]. cbv zeta. rewrite V.
        cbn [clock advance tmpfiles]. split_and!; auto; try lia.
        left. split_and!; auto; lia.
      * destruct (poll_loop _ _ _ _ _ _ _ _ _ _) as [[r2 w2] tr2] eqn:R.
        intros [= <- <- <-]. apply IH in R as [R F]. cbn [clock advance tmpfiles] in R, F.
        cbn [poll_run]. cbv zeta. rewrite V.
        cbn [clock advance tmpfiles]. split_and!; auto; try lia.
        right. split; [lia|exact R].
    + intros [= <- <- <-]. cbn [poll_run]. cbv zeta. rewrite V.
      cbn [clock advance tmpfiles]. split_and!; auto; lia.
    + exfalso. unfold reply_verdict in V.
      destruct (status_answer net k); [discriminate|].
      by apply on_status_reply_never_diverges in V.
Qed.

Lemma poll_avatar_job_eq (fuel : nat) (job : string) (timeout interval : Z) (w : world) :
  poll_avatar_job AVATAR_ENDPOINT json_dumps net fuel job timeout interval w =
  poll_loop json_dumps net fuel O job (job_url AVATAR_ENDPOINT job) timeout interval
    (clock w + seconds timeout) w.
Proof.
  unfold poll_avatar_job, bind, time_time.
  destruct (poll_loop _ _ _ _ _ _ _ _ _ _) as [[r w2] tr2]. reflexivity.
Qed.

Section Runs.

Variables (job url : string) (timeout interval deadline : Z).

Abbreviation run := (poll_run json_dumps net job url timeout interval deadline).

Lemma poll_run_queries (tr : list event) :
  forall k t res t', run k t tr res t' -> forallb is_status_query tr = true.
Proof.
  induction tr as [|ev rest IH]; intros k t res t' H; [reflexivity|].
  cbn [poll_run] in H. destruct H as (_ & -> & H). cbn [forallb is_status_query andb].
  destruct (reply_verdict json_dumps url (status_answer net k)) as [[v|]|e|]; try done.
  - by destruct H as (-> & _).
  - destruct H as [(_ & -> & _)|(_ & H)]; [done|]. by eapply IH.
  - by destruct H as (-> & _).
Qed.

Lemma poll_run_spaced (tr : list event) :
  forall k t res t', run k t tr res t' -> spaced (seconds interval) tr.
Proof.
  induction tr as [|ev rest IH]; intros k t res t' H; [exact I|].
  cbn [poll_run] in H. destruct H as (_ & -> & H).
  destruct (reply_verdict json_dumps url (status_answer net k)) as [[v|]|e|]; try done.
  - by destruct H as (-> & _).
  - destruct H as [(_ & -> & _)|(_ & H)]; [done|].
    destruct rest as [|ev2 rest2]; [exact I|]. split; [|by eapply IH].
    cbn [poll_run] in H. destruct H as (_ & -> & _). reflexivity.
  - by destruct H as (-> & _).
Qed.

(** Once a query is answered with something the loop returns or raises on,
    the run ends there with that result. *)
Lemma poll_run_at (tr : list event) :
  forall k t res t' (n : nat) ev r,
    run k t tr res t' -> tr !! n = Some ev -> status_reply ev = Some r ->
    match on_status_reply json_dumps url r with
    | Ok (Some v) => res = Ok v /\ length tr = S n
    | Raise e => res = Raise e /\ length tr = S n
    | _ => True
    end.
Proof.
  induction tr as [|ev0 rest IH]; intros k t res t' n ev r H Hn Hr; [done|].
  cbn [poll_run] in H. destruct H as (_ & E0 & H).
  destruct n as [|n].
  - injection Hn as <-. subst ev0. cbn [status_reply] in Hr.
    destruct (status_answer net k) as [|took r0]; [done|]. injection Hr as ->.
    cbn [reply_verdict] in H.
    destruct (on_status_reply json_dumps url r) as [[v|]|e|]; try done.
    + by destruct H as (-> & -> & _).
    + by destruct H as (-> & -> & _).
  - cbn in Hn.
    destruct (reply_verdict json_dumps url (status_answer net k)) as [[v|]|e|]; try done.
    + destruct H as (-> & _). done.
    + destruct H as [(_ & -> & _)|(_ & H)]; [done|].
      specialize (IH _ _ _ _ _ _ _ H Hn Hr).
      destruct (on_status_reply json_dumps url r) as [[v|]|e|]; try done.
      * destruct IH as [-> E]. cbn [length]. by rewrite E.
      * destruct IH as [-> E]. cbn [length]. by rewrite E.
    + destruct H as (-> & _). done.
Qed.

(** A run that returns does so on its last query, on a reply that reports
    success with the value returned. *)
Lemma poll_run_returns (tr : list event) :
  forall k t res t' u,
    run k t tr res t' -> res = Ok u ->
    exists ev r, last tr = Some ev /\ status_reply ev = Some r /\
                 on_status_reply json_dumps url r = Ok (Some u).
Proof.
  induction tr as [|ev0 rest IH]; intros k t res t' u H ->.
  - cbn in H. destruct H as (_ & [[_ ?]|[_ ?]]); done.
  - cbn [poll_run] in H. destruct H as (_ & E0 & H).
    unfold reply_verdict in H.
    destruct (status_answer net k) as [took why|took r] eqn:A.
    { by destruct H as (_ & ? & _). }
    destruct (on_status_reply json_dumps url r) as [[v|]|e|] eqn:V; try done.
    + destruct H as (-> & [= ->] & _). exists ev0, r. subst ev0. done.
    + destruct H as [(_ & _ & _ & ?)|(_ & H)]; [done|].
      destruct (IH _ _ _ _ _ H eq_refl) as (ev & r' & L & S' & V').
      exists ev, r'. split_and!; auto.
      destruct rest; [done|]. exact L.
    + by destruct H as (_ & ? & _).
Qed.

(** A run that ends in the timeout error ends at or after the deadline,
    and the clock never runs backwards. *)
Lemma poll_run_clock (tr : list event) :
  forall k t res t',
    run k t tr res t' ->
    t <= t' /\ (forall msg, res = Raise (TimeoutError msg) -> deadline <= t').
Proof.
  induction tr as [|ev0 rest IH]; intros k t res t' H.
  - cbn in H. destruct H as (-> & [[? ->]|[? ->]]); split; try lia; intros; done.
  - cbn [poll_run] in H. destruct H as (_ & E0 & H).
    unfold reply_verdict in H.
    destruct (status_answer net k) as [took why|took r] eqn:A; cbn [took_of] in H.
    { destruct H as (_ & -> & ->). split; [lia|done]. }
    destruct (on_status_reply json_dumps url r) as [[v|]|e|] eqn:V; try done.
    + destruct H as (_ & -> & ->). split; [lia|done].
    + destruct H as [(? & _ & -> & ->)|(? & H)]; [split; [lia|done]|].
      apply IH in H as [H1 H2]. split; [unfold seconds in H1; lia|exact H2].
    + destruct H as (_ & -> & ->). split; [lia|].
      intros msg [= ->]. exfalso. revert V. clear.
      unfold on_status_reply, raise_for_status, response_json, py_get, rbind.
      repeat case_match; congruence.
Qed.

End Runs.

(** While every reply says the job is still running, the loop goes on to
    the deadline and then raises the timeout error: enough fuel for the
    time left is enough. *)
Lemma poll_loop_running (job url : string) (timeout interval deadline : Z) :
  0 < interval ->
  (forall k, still_running (status_answer net k) = true) ->
  forall (fuel k : nat) (w : world),
    deadline - clock w <= Z.of_nat fuel * seconds interval ->
    exists w' tr,
      poll_loop json_dumps net fuel k job url timeout interval deadline w
        = (Raise (timeout_error job timeout), w', tr) /\
      deadline <= clock w' /\ tmpfiles w' = tmpfiles w /\
      forallb is_status_query tr = true.
Proof.
  intros Hi Hrun. induction fuel as [|fuel IH]; intros k w Hfuel; rewrite poll_loop_eq.
  - destruct (Z.ltb_spec (clock w) deadline); [lia|].
    exists w, []. split_and!; auto.
  - destruct (Z.ltb_spec (clock w) deadline).
    2:{ exists w, []. split_and!; auto. }
    cbv zeta. specialize (Hrun k) as Hk. unfold reply_verdict.
    destruct (status_answer net k) as [took why|took r] eqn:A; [done|].
    rewrite (on_status_reply_running url took r Hk).
    destruct (Z.ltb_spec interval 0); [lia|].
    destruct (IH (S k) (advance (seconds interval) (advance (Z.of_N (took_of (Answer took r))) w)))
      as (w' & tr & E & Hd & Hf & Hq).
    { cbn [clock advance took_of]. rewrite Nat2Z.inj_succ in Hfuel.
      rewrite Z.mul_succ_l in Hfuel. lia. }
    rewrite E. eexists _, _. split_and!; eauto.
Qed.

Lemma query_from_le (interval : Z) (n : nat) :
  0 <= interval -> forall k t, t <= query_from net interval k t n.
Proof.
  intros Hi. induction n as [|n IH]; intros k t; cbn [query_from]; [lia|].
  etransitivity; [|apply IH]. unfold seconds. lia.
Qed.

(** A provider that says "still running" [n] times and then reports success
    is waited for, as long as query [n] falls before the deadline: with
    fuel for [n + 1] passes, the loop returns the reported URL after exactly
    [n + 1] queries. *)
Lemma poll_loop_reaches (job url : string) (timeout interval deadline : Z)
    (took : N) (r : http_reply) (u : json) (n : nat) :
  0 <= interval ->
  reports_succeeded r u ->
  forall (k fuel : nat) (w : world),
    (forall i, (i < n)%nat -> still_running (status_answer net (k + i)) = true) ->
    status_answer net (k + n) = Answer took r ->
    query_from net interval k (clock w) n < deadline ->
    (n < fuel)%nat ->
    exists w' tr,
      poll_loop json_dumps net fuel k job url timeout interval deadline w = (Ok u, w', tr) /\
      length tr = S n.
Proof.
  intros Hi Hs. induction n as [|n IH]; intros k fuel w Hrun Hn Ht Hfuel;
    (destruct fuel as [|fuel]; [lia|]); rewrite poll_loop_eq.
  - cbn [query_from] in Ht. rewrite Nat.add_0_r in Hn.
    destruct (Z.ltb_spec (clock w) deadline); [|lia].
    cbv zeta. rewrite Hn. cbn [reply_verdict].
    rewrite (on_status_reply_succeeded url r u Hs). eauto.
  - pose proof (query_from_le interval (S n) Hi k (clock w)) as Hle.
    destruct (Z.ltb_spec (clock w) deadline); [|lia].
    cbv zeta. pose proof (Hrun O ltac:(lia)) as H0. rewrite Nat.add_0_r in H0.
    destruct (status_answer net k) as [t0 why|t0 r0] eqn:A; [done|].
    cbn [reply_verdict]. rewrite (on_status_reply_running url t0 r0 H0).
    destruct (Z.ltb_spec interval 0); [lia|].
    destruct (IH (S k) fuel (advance (seconds interval) (advance (Z.of_N (took_of (Answer t0 r0))) w)))
      as (w' & tr & E & Hlen).
    + intros i Hi'. replace (S k + i)%nat with (k + S i)%nat by lia. apply Hrun. lia.
    + by replace (S k + n)%nat with (k + S n)%nat by lia.
    + cbn [query_from] in Ht. rewrite A in Ht. exact Ht.
    + lia.
    + rewrite E. eexists _, _. split; [reflexivity|]. cbn [length]. by rewrite Hlen.
Qed.

(** C7. In every run of [poll_avatar_job] whose N-th status query (N = n+1)
    is answered [status=Succeeded] with [outputs.result] set to [u], the
    call returns [u], it has issued exactly N status queries and nothing
    else, and each query starts [interval] seconds after the one before it
    ended. *)
Theorem poll_returns_on_nth_query
    (fuel : nat) (job : string) (timeout interval : Z) (w w' : world)
    (res : result json) (tr : list event) (n : nat) (ev : event)
    (r : http_reply) (u : json) :
  poll_avatar_job AVATAR_ENDPOINT json_dumps net fuel job timeout interval w = (res, w', tr) ->
  tr !! n = Some ev ->
  status_reply ev = Some r ->
  reports_succeeded r u ->
  res = Ok u /\ length tr = S n /\ forallb is_status_query tr = true /\
  spaced (seconds interval) tr.
Proof.
  rewrite poll_avatar_job_eq. intros Hrun Hn Hr Hs.
  apply poll_loop_run in Hrun as [Hrun _].
  pose proof (poll_run_at _ _ _ _ _ _ _ _ _ _ _ _ _ Hrun Hn Hr) as Hat.
  rewrite (on_status_reply_succeeded _ _ _ Hs) in Hat. destruct Hat as [-> Hlen].
  split_and!; auto.
  - by eapply poll_run_queries.
  - by eapply poll_run_spaced.
Qed.

(** The verdicts on the replies whose [outputs] is missing or an object. In
    every run of [poll_avatar_job], for every reply to one of its status
    queries: if the reply says [Succeeded] with a result URL, the call
    returns that URL; if it says [Succeeded], its [outputs] is missing or an
    object and holds no result URL, the call raises the error "Job succeeded
    but no result URL found"; if it says [Failed], the call raises an error
    whose message carries the whole decoded response body. And the call
    returns only on such a reply: whenever it returns [u], its last query
    was answered [Succeeded] with result [u]. *)
Lemma poll_avatar_job_verdicts
    (fuel : nat) (job : string) (timeout interval : Z) (w w' : world)
    (res : result json) (tr : list event) :
  poll_avatar_job AVATAR_ENDPOINT json_dumps net fuel job timeout interval w = (res, w', tr) ->
  (forall ev r, In ev tr -> status_reply ev = Some r ->
     (forall u, reports_succeeded r u -> res = Ok u) /\
     (reports_succeeded_empty r ->
        res = Raise (RuntimeError "Job succeeded but no result URL found")) /\
     (forall data, reports_failed r data ->
        res = Raise (RuntimeError ("Avatar job failed: " +:+ json_dumps data)))) /\
  (forall u, res = Ok u ->
     exists ev r, last tr = Some ev /\ status_reply ev = Some r /\ reports_succeeded r u).
Proof.
  rewrite poll_avatar_job_eq. intros Hrun.
  apply poll_loop_run in Hrun as [Hrun _]. split.
  - intros ev r Hin Hr.
    apply list_elem_of_In, list_elem_of_lookup in Hin as [n Hn].
    pose proof (poll_run_at _ _ _ _ _ _ _ _ _ _ _ _ _ Hrun Hn Hr) as Hat.
    split_and!.
    + intros u Hs. rewrite (on_status_reply_succeeded _ _ _ Hs) in Hat. tauto.
    + intros Hs. rewrite (on_status_reply_empty _ _ Hs) in Hat. tauto.
    + intros data Hs. rewrite (on_status_reply_failed _ _ _ Hs) in Hat. tauto.
  - intros u Hu.
    destruct (poll_run_returns _ _ _ _ _ _ _ _ _ _ _ Hrun Hu) as (ev & r & L & S' & V).
    exists ev, r. split_and!; auto. by eapply on_status_reply_returns.
Qed.

(** ** Polling: targets and edge cases *)

Lemma poll_run_targets (job url : string) (timeout interval deadline : Z) (tr : list event) :
  forall k t res t',
    poll_run json_dumps net job url timeout interval deadline k t tr res t' ->
    forallb (is_query_of url) tr = true.
Proof.
  induction tr as [|ev rest IH]; intros k t res t' H; [reflexivity|].
  cbn [poll_run] in H. destruct H as (_ & -> & H).
  cbn [forallb is_query_of]. rewrite String.eqb_refl. cbn [andb].
  destruct (reply_verdict json_dumps url (status_answer net k)) as [[v|]|e|]; try done.
  - by destruct H as (-> & _).
  - destruct H as [(_ & -> & _)|(_ & H)]; [done|]. by eapply IH.
  - by destruct H as (-> & _).
Qed.

(** What a reply to a status query of a run makes of the run. *)
Lemma poll_avatar_job_at (fuel : nat) (job : string) (timeout interval : Z) (w w' : world)
    (res : result json) (tr : list event) (ev : event) (r : http_reply) :
  poll_avatar_job AVATAR_ENDPOINT json_dumps net fuel job timeout interval w = (res, w', tr) ->
  In ev tr -> status_reply ev = Some r ->
  match on_status_reply json_dumps (job_url AVATAR_ENDPOINT job) r with
  | Ok (Some v) => res = Ok v /\ last tr = Some ev
  | Raise e => res = Raise e /\ last tr = Some ev
  | _ => True
  end.
Proof.
  rewrite poll_avatar_job_eq. intros Hrun Hin Hr.
  apply poll_loop_run in Hrun as [Hrun _].
  apply list_elem_of_In, list_elem_of_lookup in Hin as [n Hn].
  pose proof (poll_run_at _ _ _ _ _ _ _ _ _ _ _ _ _ Hrun Hn Hr) as Hat.
  assert (Hlast : length tr = S n -> last tr = Some ev).
  { intros Hlen. rewrite last_lookup, Hlen. exact Hn. }
  destruct (on_status_reply _ _ r) as [[v|]|e|]; try done; split; tauto.
Qed.

Lemma poll_avatar_job_timeout_clock (fuel : nat) (job : string) (timeout interval : Z)
    (w w' : world) (tr : list event) (msg : string) :
  poll_avatar_job AVATAR_ENDPOINT json_dumps net fuel job timeout interval w
    = (Raise (TimeoutError msg), w', tr) ->
  clock w + seconds timeout <= clock w'.
Proof.
  rewrite poll_avatar_job_eq. intros H. apply poll_loop_run in H as [H _].
  apply poll_run_clock in H as [_ H]. by eapply H.
Qed.

(** C5, where the code departs from it. [data.get("outputs", {})] puts the
    empty dict in the place of a missing [outputs] only. When a reply says
    [Succeeded] and its [outputs] is present and no object (null, for one),
    the result URL is absent, yet the call does not raise the error "Job
    succeeded but no result URL found": reading [result] raises
    [AttributeError], on that query, which is the last of the run. The
    route answers that exception with 500, where the error that was meant
    gets 502. *)
Theorem succeeded_outputs_not_object
    (fuel : nat) (job : string) (timeout interval : Z) (w w' : world)
    (res : result json) (tr : list event) (ev : event) (r : http_reply) (v : json) :
  poll_avatar_job AVATAR_ENDPOINT json_dumps net fuel job timeout interval w = (res, w', tr) ->
  In ev tr -> status_reply ev = Some r -> reports_succeeded_untyped r v ->
  let raised := LibraryError AttributeError
                  ("'" +:+ type_name v +:+ "' object has no attribute 'get'") in
  let meant := RuntimeError "Job succeeded but no result URL found" in
  res = Raise raised /\ res <> Raise meant /\ last tr = Some ev /\
  code (on_exception raised) = 500 /\ code (on_exception meant) = 502.
Proof.
  intros Hrun Hin Hr Hs raised meant.
  pose proof (poll_avatar_job_at _ _ _ _ _ _ _ _ _ _ Hrun Hin Hr) as Hat.
  rewrite (on_status_reply_untyped _ _ _ Hs) in Hat. destruct Hat as [-> Hlast].
  split_and!; [reflexivity|discriminate|exact Hlast|reflexivity|reflexivity].
Qed.

(** X13. With a timeout of zero or less, [poll_avatar_job] raises the timeout
    error at once: it sends no query and leaves the clock where it was. *)
Theorem poll_without_time
    (fuel : nat) (job : string) (timeout interval : Z) (w : world) :
  timeout <= 0 ->
  poll_avatar_job AVATAR_ENDPOINT json_dumps net fuel job timeout interval w
    = (Raise (timeout_error job timeout), w, []).
Proof.
  intros Ht. rewrite poll_avatar_job_eq, poll_loop_eq.
  destruct (Z.ltb_spec (clock w) (clock w + seconds timeout)); [unfold seconds in *; lia|].
  reflexivity.
Qed.

(** X14. Polling keeps to its job and to its interval. Whatever the
    provider answers and however the run ends, [poll_avatar_job] calls
    nothing but the status URL of its job; the first query starts at once
    and each later one starts one interval after the reply to the one
    before it; the files are left alone and the clock does not go back. *)
Theorem poll_queries_keep_the_interval
    (fuel : nat) (job : string) (timeout interval : Z) (w w' : world)
    (res : result json) (tr : list event) :
  poll_avatar_job AVATAR_ENDPOINT json_dumps net fuel job timeout interval w = (res, w', tr) ->
  forallb (is_query_of (job_url AVATAR_ENDPOINT job)) tr = true /\
  (forall ev, head tr = Some ev -> ev_start ev = clock w) /\
  spaced (seconds interval) tr /\
  tmpfiles w' = tmpfiles w /\ clock w <= clock w'.
Proof.
  rewrite poll_avatar_job_eq. intros H. apply poll_loop_run in H as [H F].
  split_and!.
  - by eapply poll_run_targets.
  - intros ev Hev. destruct tr as [|ev0 rest]; [done|]. injection Hev as ->.
    cbn [poll_run] in H. by destruct H as (_ & -> & _).
  - by eapply poll_run_spaced.
  - exact F.
  - apply poll_run_clock in H as [H _]. exact H.
Qed.

End Polling.

(** ** The route *)

Section Route.

Variable API_KEY : string.
Variable AVATAR_ENDPOINT : string.
Variable py_str : json -> string.
Variable json_dumps : json -> string.
Variable net : oracle.

Lemma deliver_eq (job_id : string) (video_url : json) (w : world) :
  deliver py_str net job_id video_url w =
  match video_url with
  | JStr u =>
      let a := download_answer net u in
      let w1 := advance (Z.of_N (took_of a)) w in
      let e1 := EvDownload u (clock w) (clock w1) a in
      match a with
      | NoAnswer _ why => (Raise (LibraryError ConnectionError why), w1, [e1])
      | Answer _ r =>
          match raise_for_status u r with
          | Ok _ =>
              let w2 := with_temp_file (temp_name net) w1 in
              match stream_error net with
              | Some why => (Raise (LibraryError ChunkedEncodingError why), w2, [e1])
              | None =>
                  let ua := upload_result net in
                  let w3 := advance (Z.of_N (upload_took ua)) w2 in
                  let e2 := EvUpload (temp_name net) (clock w2) (clock w3) ua in
                  match ua with
                  | Rejected _ why => (Raise (LibraryError CloudinaryError why), w3, [e1; e2])
                  | Stored _ result =>
                      match assoc "secure_url" result with
                      | Some cloudinary_url =>
                          (Ok {| code := 200;
                                 content := JObj [ ("success", JBool true);
                                                   ("video_url", cloudinary_url);
                                                   ("job_id", JStr job_id) ] |},
                           without_temp_file (temp_name net) w3, [e1; e2])
                      | None => (Raise (LibraryError KeyError "secure_url"), w3, [e1; e2])
                      end
                  end
              end
          | Raise e => (Raise e, w1, [e1])
          | Diverge => (Diverge, w1, [e1])
          end
      end
  | _ =>
      (Raise (LibraryError MissingSchema
                ("Invalid URL '" +:+ py_str video_url
                   +:+ "': No scheme supplied. Perhaps you meant https://"
                   +:+ py_str video_url +:+ "?")), w, [])
  end.
Proof.
  unfold deliver, download_file.
  destruct video_url as [| | | |u| |]; try reflexivity.
  unfold bind at 1 2. unfold perform.
  destruct (download_answer net u) as [took why|took r]; [reflexivity|].
  cbn [took_of]. unfold lift at 1.
  destruct (raise_for_status u r) as [[]|e|]; try reflexivity.
  unfold named_temporary_file, bind at 1. cbn [clock tmpfiles advance].
  destruct (stream_error net) as [why|]; [reflexivity|].
  unfold ret at 1, lift at 1. unfold upload_to_cloudinary, cloudinary_upload, bind.
  cbv zeta.
  destruct (upload_result net) as [took2 why|took2 result]; [reflexivity|].
  destruct (assoc "secure_url" result) as [cu|]; [|reflexivity].
  unfold ret, lift, os_unlink. cbn [clock tmpfiles advance with_temp_file upload_took].
  rewrite bool_decide_eq_true_2 by set_solver. reflexivity.
Qed.

Lemma pipeline_eq (fuel : nat) (j : job_request) (w : world) :
  pipeline AVATAR_ENDPOINT py_str json_dumps net fuel j w =
  let job_id := uuid4 net in
  let a := put_answer net in
  let w1 := advance (Z.of_N (took_of a)) w in
  let e1 := EvPut (job_url AVATAR_ENDPOINT job_id)
              (job_payload (jr_text j) (jr_voice j) (jr_character j) (jr_style j)
                 (jr_background j))
              (clock w) (clock w1) a in
  match a with
  | NoAnswer _ why => (Raise (LibraryError ConnectionError why), w1, [e1])
  | Answer _ r =>
      if resp_status r >=? 400
      then (Raise (RuntimeError ("Azure job creation failed [" +:+ pretty (resp_status r)
                                   +:+ "]: " +:+ resp_text r)), w1, [e1])
      else
        match poll_avatar_job AVATAR_ENDPOINT json_dumps net fuel job_id 600 5 w1 with
        | (Ok video_url, w2, tr2) =>
            match deliver py_str net job_id video_url w2 with
            | (res, w3, tr3) => (res, w3, e1 :: tr2 ++ tr3)
            end
        | (Raise e, w2, tr2) => (Raise e, w2, e1 :: tr2)
        | (Diverge, w2, tr2) => (Diverge, w2, e1 :: tr2)
        end
  end.
Proof.
  unfold pipeline, create_avatar_job. unfold bind at 1 2. unfold perform. cbv zeta.
  destruct (put_answer net) as [took why|took r]; [reflexivity|].
  cbn [took_of].
  destruct (resp_status r >=? 400); [reflexivity|].
  unfold ret at 1, lift at 1. unfold bind at 1.
  destruct (poll_avatar_job _ _ _ _ _ _ _ _) as [[[v|e|] w2] tr2]; try reflexivity.
  fold (deliver py_str net (uuid4 net) v).
  destruct (deliver py_str net (uuid4 net) v w2) as [[res w3] tr3]. reflexivity.
Qed.

Lemma route_eq (fuel : nat) (req : request) (w : world) :
  post_generate_avatar API_KEY AVATAR_ENDPOINT py_str json_dumps net fuel req w =
  match authorize API_KEY req with
  | Ok (Some denied) => (Sent denied, w, [])
  | Ok None =>
      match validate py_str req with
      | Ok (inl invalid) => (Sent invalid, w, [])
      | Ok (inr j) =>
          match pipeline AVATAR_ENDPOINT py_str json_dumps net fuel j w with
          | (Ok r, w', tr) => (Sent r, w', tr)
          | (Raise e, w', tr) => (Sent (on_exception e), w', tr)
          | (Diverge, w', tr) => (NoResponse, w', tr)
          end
      | Raise e => (error_page e, w, [])
      | Diverge => (NoResponse, w, [])
      end
  | Raise e => (error_page e, w, [])
  | Diverge => (NoResponse, w, [])
  end.
Proof.
  unfold post_generate_avatar, generate_avatar, bind, lift, ret, try_except.
  destruct (authorize API_KEY req) as [[denied|]|e|]; try reflexivity.
  destruct (validate py_str req) as [[invalid|j]|e|]; try reflexivity.
  destruct (pipeline _ _ _ _ _ _ _) as [[[r|e|] w'] tr]; try reflexivity.
  cbn. by rewrite app_nil_r.
Qed.

Lemma poll_avatar_job_frame (fuel : nat) (job : string) (timeout interval : Z)
    (w w' : world) (res : result json) (tr : list event) :
  poll_avatar_job AVATAR_ENDPOINT json_dumps net fuel job timeout interval w = (res, w', tr) ->
  forallb is_status_query tr = true /\ tmpfiles w' = tmpfiles w /\ clock w <= clock w'.
Proof.
  rewrite poll_avatar_job_eq. intros H. apply poll_loop_run in H as [H F].
  split_and!; auto.
  - by eapply poll_run_queries.
  - apply poll_run_clock in H as [H _]. exact H.
Qed.

Lemma status_queries_only (P : event -> bool) (tr : list event) :
  (forall ev, is_status_query ev = true -> P ev = false) ->
  forallb is_status_query tr = true -> existsb P tr = false.
Proof.
  intros HP. induction tr as [|ev tr IH]; [reflexivity|].
  cbn. intros [H1 H2]%andb_true_iff. by rewrite (HP ev H1), IH.
Qed.

Lemma raise_for_status_spec (url : string) (r : http_reply) :
  (is_http_error (resp_status r) = false /\ raise_for_status url r = Ok tt) \/
  (is_http_error (resp_status r) = true /\
   exists msg, raise_for_status url r = Raise (LibraryError HTTPError msg)).
Proof.
  destruct (is_http_error (resp_status r)) eqn:E.
  - right. split; [reflexivity|]. by apply raise_for_status_error.
  - left. split; [reflexivity|]. by apply raise_for_status_ok.
Qed.

Lemma authorize_denied_code (req : request) (r : response) :
  authorize API_KEY req = Ok (Some r) -> code r = 401.
Proof.
  unfold authorize, rbind. destruct (provided_key req) as [key|e|]; try discriminate.
  destruct (negb _); intros [= <-]; reflexivity.
Qed.

Lemma validate_invalid_code (req : request) (r : response) :
  validate py_str req = Ok (inl r) -> code r = 400.
Proof.
  unfold validate, rbind. intros H.
  repeat case_match; simplify_eq; reflexivity.
Qed.

Lemma on_exception_code (e : exn) :
  code (on_exception e) = match e with
                          | TimeoutError _ => 504
                          | RuntimeError _ => 502
                          | LibraryError _ _ => 500
                          end.
Proof. by destruct e. Qed.

Lemma error_page_not_200 (e : exn) : http_status (error_page e) <> Some 200.
Proof. by destruct e as [?|?|[] ?]. Qed.

Lemma temp_file_present (name : string) (files : gset string) :
  name ∈ {[ name ]} ∪ files.
Proof. set_solver. Qed.

Lemma temp_file_absent (name : string) (files : gset string) :
  name ∉ ({[ name ]} ∪ files) ∖ {[ name ]}.
Proof. intros [_ H]%elem_of_difference. by apply H, elem_of_singleton. Qed.

(** Opens a run of the route into its paths: one goal per place where the
    route can end, with the result, the final world and the trace of that
    path in the goal. The hypothesis named [Hq] says that the polling left
    status queries only and no change in the files. *)
Ltac route_paths :=
  rewrite route_eq;
  destruct (authorize _ _) as [[?|]|?|] eqn:Hauth;
  [ | destruct (validate _ _) as [[?|?]|?|] eqn:Hval;
      [ | rewrite pipeline_eq; cbv zeta;
          destruct (put_answer _) as [?|? ?] eqn:Hput;
          [ | destruct (resp_status _ >=? 400) eqn:Hcode;
              [ | destruct (poll_avatar_job _ _ _ _ _ _ _ _) as [[[?|?|] ?] ?] eqn:Hpoll;
                  apply poll_avatar_job_frame in Hpoll as Hq;
                  [ rewrite deliver_eq;
                    match goal with
                    | |- context [match ?v with JStr _ => _ | _ => _ end] =>
                        destruct v as [| | | |?| |]
                    end;
                    [ | | | |
                      cbv zeta;
                      destruct (download_answer _ _) as [?|? ?] eqn:Hdl;
                      [ | match goal with
                          | |- context [raise_for_status ?u ?r] =>
                              destruct (raise_for_status_spec u r)
                                as [[Hok ->]|[Hko [? ->]]]
                          end;
                          [ destruct (stream_error _) eqn:Hstream;
                            [ | destruct (upload_result _) as [?|? ?] eqn:Hup;
                                [ | destruct (assoc "secure_url" _) eqn:Hurl ] ]
                          | ] ]
                    | | ]
                  | | ] ] ]
      | | ]
  | | ];
  intros [= <- <- <-].

(** On a trace of status queries, no event is of another kind. *)
Ltac only_queries Hq :=
  repeat match goal with
  | |- context [existsb ?P (?tr ++ _)] => rewrite (existsb_app P tr)
  | |- context [existsb ?P ?tr] =>
      is_var tr;
      rewrite (status_queries_only P tr) by (first [by intros [] | apply Hq])
  end.

(** C1, as the code has it. In every run of the route in which the download
    of the artifact is answered with an error status, or the media host
    rejects the upload, the response status is 500 (the catch-all
    "Unexpected error"); it is 502 when the job submission is answered with
    a status code of 400 or more. *)
Theorem failed_transfer_status
    (fuel : nat) (req : request) (w w' : world) (out : outcome) (tr : list event) :
  post_generate_avatar API_KEY AVATAR_ENDPOINT py_str json_dumps net fuel req w
    = (out, w', tr) ->
  (existsb download_failed tr = true -> http_status out = Some 500) /\
  (existsb upload_failed tr = true -> http_status out = Some 500) /\
  (existsb submission_failed tr = true -> http_status out = Some 502).
Proof.
  route_paths.
  all: cbn [existsb download_failed upload_failed submission_failed orb].
  all: try (destruct Hq as (Hq & _ & _); only_queries Hq).
  all: cbn [existsb download_failed upload_failed submission_failed orb http_status
            on_exception error_response code].
  all: try (split_and!; first [discriminate | reflexivity]).
  all: replace (400 <=? resp_status r) with false by lia.
  all: try rewrite Hok.
  all: split_and!; intros; first [discriminate | reflexivity].
Qed.

(** C9. The temporary file of the download step is deleted exactly on the
    success path. In every run of the route: once the upload step has
    returned, the response is the 200 one and the file is gone when it is
    sent; whenever the response is the 200 one the file is gone; and
    whenever the download was answered (so that the file was created) and
    the response is not the 200 one, the file is still there. *)
Theorem temp_file_deleted_on_success_only
    (fuel : nat) (req : request) (w w' : world) (out : outcome) (tr : list event) :
  post_generate_avatar API_KEY AVATAR_ENDPOINT py_str json_dumps net fuel req w
    = (out, w', tr) ->
  (existsb upload_returned tr = true ->
     http_status out = Some 200 /\ temp_name net ∉ tmpfiles w') /\
  (http_status out = Some 200 -> temp_name net ∉ tmpfiles w') /\
  (existsb download_answered tr = true -> http_status out <> Some 200 ->
     temp_name net ∈ tmpfiles w').
Proof.
  route_paths.
  all: try (apply authorize_denied_code in Hauth).
  all: try (apply validate_invalid_code in Hval).
  all: cbn [existsb upload_returned download_answered orb].
  all: try (destruct Hq as (Hq & Hfiles & _); only_queries Hq).
  all: cbn [existsb upload_returned download_answered orb http_status
            on_exception error_response code tmpfiles advance
            with_temp_file without_temp_file].
  all: try rewrite on_exception_code.
  all: try rewrite Hok; try rewrite Hko; try rewrite Hurl.
  all: cbn [negb orb].
  all: split_and!; intros; try discriminate; try congruence.
  all: try (repeat case_match; congruence).
  all: try (exfalso; by eapply error_page_not_200).
  all: try split; first [reflexivity | apply temp_file_present | apply temp_file_absent].
Qed.

(** C4. (1) Whenever [poll_avatar_job] raises the timeout error, the clock
    is at or past the start plus [timeout] seconds. (2) When no reply ever
    reports a job done or failed, and [interval] is positive, the call does
    raise the timeout error (given fuel for the waiting). (3) On the route,
    where the call is made with 600 and 5 seconds, such a provider makes the
    response the 504 one, sent 600 seconds or more after the request came. *)
Theorem polling_times_out :
  (forall fuel job timeout interval w w' tr msg,
     poll_avatar_job AVATAR_ENDPOINT json_dumps net fuel job timeout interval w
       = (Raise (TimeoutError msg), w', tr) ->
     clock w + seconds timeout <= clock w') /\
  ((forall k, still_running (status_answer net k) = true) ->
   forall job timeout interval w,
     0 < interval ->
     exists fuel0 : nat, forall fuel, (fuel0 <= fuel)%nat ->
       exists w' tr,
         poll_avatar_job AVATAR_ENDPOINT json_dumps net fuel job timeout interval w
           = (Raise (timeout_error job timeout), w', tr) /\
         clock w + seconds timeout <= clock w') /\
  ((forall k, still_running (status_answer net k) = true) ->
   forall req j w took r,
     authorize API_KEY req = Ok None ->
     validate py_str req = Ok (inr j) ->
     put_answer net = Answer took r ->
     resp_status r < 400 ->
     forall fuel, (120 <= fuel)%nat ->
       exists resp w' tr,
         post_generate_avatar API_KEY AVATAR_ENDPOINT py_str json_dumps net fuel req w
           = (Sent resp, w', tr) /\
         code resp = 504 /\
         clock w + seconds 600 <= clock w').
Proof.
  split_and!.
  - intros fuel job timeout interval w w' tr msg. rewrite poll_avatar_job_eq.
    intros H. apply poll_loop_run in H as [H _].
    apply poll_run_clock in H as [_ H]. by eapply H.
  - intros Hrun job timeout interval w Hi.
    exists (Z.to_nat timeout). intros fuel Hfuel.
    destruct (poll_loop_running json_dumps net job (job_url AVATAR_ENDPOINT job) timeout interval
                (clock w + seconds timeout) Hi Hrun fuel O w)
      as (w' & tr & E & Hd & _).
    { unfold seconds. nia. }
    exists w', tr. by rewrite poll_avatar_job_eq.
  - intros Hrun req j w took r Hauth Hval Hput Hcode fuel Hfuel.
    rewrite route_eq, Hauth, Hval, pipeline_eq, Hput. cbv beta iota zeta.
    replace (resp_status r >=? 400) with false by lia.
    rewrite poll_avatar_job_eq.
    destruct (poll_loop_running json_dumps net (uuid4 net) (job_url AVATAR_ENDPOINT (uuid4 net)) 600 5
                (clock (advance (Z.of_N (took_of (Answer took r))) w) + seconds 600)
                ltac:(lia) Hrun fuel O (advance (Z.of_N (took_of (Answer took r))) w))
      as (w' & tr & E & Hd & _).
    { unfold seconds. lia. }
    rewrite E. eexists _, _, _. split; [reflexivity|]. split; [reflexivity|].
    cbn [clock advance took_of] in Hd. lia.
Qed.

(** The route ends before its [try] when a check fails. *)
Lemma route_rejects (fuel : nat) (req : request) (w : world) (r : response) :
  authorize API_KEY req = Ok None ->
  validate py_str req = Ok (inl r) ->
  post_generate_avatar API_KEY AVATAR_ENDPOINT py_str json_dumps net fuel req w
    = (Sent r, w, []).
Proof. intros Ha Hv. by rewrite route_eq, Ha, Hv. Qed.

Lemma dict_contains_catalog (character : json) :
  hashable character = true ->
  dict_contains AVATARS character
    = Ok (match catalog_styles character with Some _ => true | None => false end).
Proof.
  destruct character as [| | | |c| |]; try done.
  intros _. cbn [dict_contains catalog_styles].
  destruct (AVATARS !! c) eqn:E.
  - by rewrite bool_decide_eq_true_2.
  - rewrite bool_decide_eq_false_2; [done|]. by intros [? ?].
Qed.

Lemma dict_getitem_catalog (character : json) (shown : string) (styles : list string) :
  catalog_styles character = Some styles ->
  dict_getitem AVATARS character shown = Ok styles.
Proof.
  destruct character as [| | | |c| |]; try done.
  cbn [dict_getitem catalog_styles]. by intros ->.
Qed.

(** [validate] on a request whose body is read as an object, whose [text]
    is a string and whose character can be a dict key. *)
Lemma validate_eq (req : request) (fields : list (string * json)) (s : string) :
  request_data req = JObj fields ->
  field fields "text" (JStr "") = JStr s ->
  hashable (field fields "talkingAvatarCharacter" (JStr "harry")) = true ->
  let voice := field fields "voice" (JStr "th-TH-NiwatNeural") in
  let character := field fields "talkingAvatarCharacter" (JStr "harry") in
  let style := field fields "talkingAvatarStyle" (JStr "casual") in
  validate py_str req =
    if String.eqb (strip s) "" then Ok (inl (error_response "Missing 'text' field" 400))
    else if negb (in_str_list voice ALL_VOICES)
    then Ok (inl (error_response ("Invalid voice '" +:+ py_format py_str voice
                                    +:+ "'. See GET /voices for options.") 400))
    else match catalog_styles character with
         | None => Ok (inl (error_response ("Invalid character '" +:+ py_format py_str character
                                    +:+ "'. See GET /models for options.") 400))
         | Some styles =>
             if negb (in_str_list style styles)
             then Ok (inl (error_response ("Invalid style '" +:+ py_format py_str style
                                    +:+ "' for character '" +:+ py_format py_str character
                                    +:+ "'. Valid: " +:+ repr_str_list styles) 400))
             else Ok (inr {| jr_text := strip s; jr_voice := voice;
                             jr_character := character; jr_style := style;
                             jr_background := field fields "background" JNull |})
         end.
Proof.
  intros Hdata Htext Hhash voice character style.
  unfold validate. rewrite Hdata. cbn [py_get rbind].
  fold (field fields "text" (JStr "")). rewrite Htext. cbn [py_strip rbind].
  destruct (String.eqb (strip s) ""); [reflexivity|].
  fold (field fields "voice" (JStr "th-TH-NiwatNeural")).
  fold (field fields "talkingAvatarCharacter" (JStr "harry")).
  fold (field fields "talkingAvatarStyle" (JStr "casual")).
  fold (field fields "background" JNull). fold voice character style.
  destruct (negb (in_str_list voice ALL_VOICES)); [reflexivity|].
  rewrite (dict_contains_catalog character Hhash). cbn [rbind].
  destruct (catalog_styles character) as [styles|] eqn:Hc; [|reflexivity].
  cbn [negb]. by rewrite (dict_getitem_catalog character _ styles Hc).
Qed.

(** [validate] up to the character check, on a request whose body is read
    as an object and whose [text] is a string: the text check, the voice
    check, and what the dict lookup makes of a character it cannot hash. *)
Lemma validate_head (req : request) (fields : list (string * json)) (s : string) :
  request_data req = JObj fields ->
  field fields "text" (JStr "") = JStr s ->
  let voice := field fields "voice" (JStr "th-TH-NiwatNeural") in
  let character := field fields "talkingAvatarCharacter" (JStr "harry") in
  (strip s = "" ->
     validate py_str req = Ok (inl (error_response "Missing 'text' field" 400))) /\
  (strip s <> "" -> in_str_list voice ALL_VOICES = false ->
     validate py_str req
       = Ok (inl (error_response ("Invalid voice '" +:+ py_format py_str voice
                                    +:+ "'. See GET /voices for options.") 400))) /\
  (strip s <> "" -> in_str_list voice ALL_VOICES = true -> hashable character = false ->
     validate py_str req
       = Raise (LibraryError TypeError
                  ("unhashable type: '" +:+ type_name character +:+ "'"))).
Proof.
  intros Hdata Htext voice character.
  unfold validate. rewrite Hdata. cbn [py_get rbind].
  fold (field fields "text" (JStr "")). rewrite Htext. cbn [py_strip rbind].
  fold (field fields "voice" (JStr "th-TH-NiwatNeural")).
  fold (field fields "talkingAvatarCharacter" (JStr "harry")).
  fold voice character.
  split_and!.
  - intros He. by rewrite (proj2 (String.eqb_eq _ _) He).
  - intros He Hvoice. rewrite (proj2 (String.eqb_neq _ _) He). by rewrite Hvoice.
  - intros He Hvoice Hhash. rewrite (proj2 (String.eqb_neq _ _) He). rewrite Hvoice.
    cbn [negb]. by destruct character.
Qed.

(** The four checks in the order written. For every authenticated request
    whose body is read as an object and whose [text] is a string (or
    missing): the checks run in the order text, voice, character, style;
    the first one that fails decides the response, which is the 400 one
    with that check's message; no external call is made and the world is
    left as it was. The character check answers so for a character that can
    be a dict key. *)
Lemma validation_order
    (fuel : nat) (req : request) (w : world) (fields : list (string * json)) (s : string) :
  authorize API_KEY req = Ok None ->
  request_data req = JObj fields ->
  field fields "text" (JStr "") = JStr s ->
  let voice := field fields "voice" (JStr "th-TH-NiwatNeural") in
  let character := field fields "talkingAvatarCharacter" (JStr "harry") in
  let style := field fields "talkingAvatarStyle" (JStr "casual") in
  let run := post_generate_avatar API_KEY AVATAR_ENDPOINT py_str json_dumps net fuel req w in
  (strip s = "" ->
     run = (Sent (error_response "Missing 'text' field" 400), w, [])) /\
  (strip s <> "" -> in_str_list voice ALL_VOICES = false ->
     run = (Sent (error_response ("Invalid voice '" +:+ py_format py_str voice
                                    +:+ "'. See GET /voices for options.") 400), w, [])) /\
  (strip s <> "" -> in_str_list voice ALL_VOICES = true ->
   hashable character = true -> catalog_styles character = None ->
     run = (Sent (error_response ("Invalid character '" +:+ py_format py_str character
                                    +:+ "'. See GET /models for options.") 400), w, [])) /\
  (forall styles,
   strip s <> "" -> in_str_list voice ALL_VOICES = true ->
   catalog_styles character = Some styles ->
   in_str_list style styles = false ->
     run = (Sent (error_response ("Invalid style '" +:+ py_format py_str style
                                    +:+ "' for character '" +:+ py_format py_str character
                                    +:+ "'. Valid: " +:+ repr_str_list styles) 400), w, [])).
Proof.
  intros Hauth Hdata Htext voice character style run.
  destruct (validate_head req fields s Hdata Htext) as (H1 & H2 & _).
  split_and!.
  - intros He. apply route_rejects; [done|]. by apply H1.
  - intros He Hvoice. apply route_rejects; [done|]. by apply H2.
  - intros He Hvoice Hhash Hc. apply route_rejects; [done|].
    rewrite (validate_eq req fields s Hdata Htext Hhash). cbv zeta.
    fold voice character style.
    rewrite (proj2 (String.eqb_neq _ _) He). by rewrite Hvoice, Hc.
  - intros styles He Hvoice Hc Hs. apply route_rejects; [done|].
    assert (Hhash : hashable character = true) by (by destruct character).
    rewrite (validate_eq req fields s Hdata Htext Hhash). cbv zeta.
    fold voice character style.
    rewrite (proj2 (String.eqb_neq _ _) He). by rewrite Hvoice, Hc, Hs.
Qed.

(** C3, where the code departs from it. The character check, [character
    not in AVATARS], looks the character up in a dict, and a dict hashes its
    key first. For an authenticated request whose text and voice pass
    their checks and whose character is a JSON array or object, the
    character is no catalog key, so the third check is the first to fail;
    but the lookup raises [TypeError] before it can answer, the checks
    stand outside the [try], and the client gets Flask's 500 page in the
    place of the 400 response. No external call is made. *)
Theorem unhashable_character_is_500
    (fuel : nat) (req : request) (w : world) (fields : list (string * json)) (s : string) :
  authorize API_KEY req = Ok None ->
  request_data req = JObj fields ->
  field fields "text" (JStr "") = JStr s ->
  strip s <> "" ->
  in_str_list (field fields "voice" (JStr "th-TH-NiwatNeural")) ALL_VOICES = true ->
  hashable (field fields "talkingAvatarCharacter" (JStr "harry")) = false ->
  catalog_styles (field fields "talkingAvatarCharacter" (JStr "harry")) = None /\
  validate py_str req
    = Raise (LibraryError TypeError
               ("unhashable type: '"
                  +:+ type_name (field fields "talkingAvatarCharacter" (JStr "harry"))
                  +:+ "'")) /\
  post_generate_avatar API_KEY AVATAR_ENDPOINT py_str json_dumps net fuel req w
    = (ErrorPage 500, w, []).
Proof.
  intros Hauth Hdata Htext He Hvoice Hhash.
  destruct (validate_head req fields s Hdata Htext) as (_ & _ & H3).
  specialize (H3 He Hvoice Hhash).
  split_and!.
  - by destruct (field fields "talkingAvatarCharacter" (JStr "harry")).
  - exact H3.
  - by rewrite route_eq, Hauth, H3.
Qed.

(** C6, as the code has it. For every authenticated request with non-empty
    text and a voice outside the known voices, the response is the 400 one,
    no call is made, and the message names the rejected voice and points to
    [GET /voices]. *)
Theorem unknown_voice_rejected
    (fuel : nat) (req : request) (w : world) (fields : list (string * json)) (s : string) :
  authorize API_KEY req = Ok None ->
  request_data req = JObj fields ->
  field fields "text" (JStr "") = JStr s ->
  strip s <> "" ->
  in_str_list (field fields "voice" (JStr "th-TH-NiwatNeural")) ALL_VOICES = false ->
  post_generate_avatar API_KEY AVATAR_ENDPOINT py_str json_dumps net fuel req w
    = (Sent (error_response
               ("Invalid voice '"
                  +:+ py_format py_str (field fields "voice" (JStr "th-TH-NiwatNeural"))
                  +:+ "'. See GET /voices for options.") 400), w, []).
Proof.
  intros Hauth Hdata Htext He Hvoice. apply route_rejects; [done|].
  unfold validate. rewrite Hdata. cbn [py_get rbind].
  fold (field fields "text" (JStr "")). rewrite Htext. cbn [py_strip rbind].
  rewrite (proj2 (String.eqb_neq _ _) He).
  fold (field fields "voice" (JStr "th-TH-NiwatNeural")). by rewrite Hvoice.
Qed.

Lemma pipeline_ok_code (fuel : nat) (j : job_request) (w w' : world)
    (r : response) (tr : list event) :
  pipeline AVATAR_ENDPOINT py_str json_dumps net fuel j w = (Ok r, w', tr) -> code r = 200.
Proof.
  rewrite pipeline_eq. cbv zeta.
  destruct (put_answer net) as [?|? ?]; [discriminate|].
  destruct (_ >=? 400); [discriminate|].
  destruct (poll_avatar_job _ _ _ _ _ _ _ _) as [[[v|e|] w2] tr2]; try discriminate.
  destruct (deliver _ _ _ _ _) as [[res w3] tr3] eqn:D. intros [= -> <- <-].
  rewrite deliver_eq in D. cbv zeta in D.
  repeat case_match; simplify_eq; reflexivity.
Qed.

(** C10, as the code has it. (1) The defaults pass the checks together: the
    default voice is a known voice, the default character is in the catalog
    and the default style is one of its styles. (2) In a request that passes
    the checks, each of voice, character and style that the body omits has
    its default. (3) An authenticated request with non-empty text that omits
    all three passes the checks with the three defaults, and its response is
    never the 400 one. *)
Theorem defaults_pass_validation :
  (in_str_list (JStr "th-TH-NiwatNeural") ALL_VOICES = true /\
   exists styles, catalog_styles (JStr "harry") = Some styles /\
                  in_str_list (JStr "casual") styles = true) /\
  (forall req fields j,
     request_data req = JObj fields ->
     validate py_str req = Ok (inr j) ->
     jr_voice j = field fields "voice" (JStr "th-TH-NiwatNeural") /\
     jr_character j = field fields "talkingAvatarCharacter" (JStr "harry") /\
     jr_style j = field fields "talkingAvatarStyle" (JStr "casual")) /\
  (forall req fields s,
     authorize API_KEY req = Ok None ->
     request_data req = JObj fields ->
     field fields "text" (JStr "") = JStr s ->
     strip s <> "" ->
     assoc "voice" fields = None ->
     assoc "talkingAvatarCharacter" fields = None ->
     assoc "talkingAvatarStyle" fields = None ->
     validate py_str req
       = Ok (inr {| jr_text := strip s;
                    jr_voice := JStr "th-TH-NiwatNeural";
                    jr_character := JStr "harry";
                    jr_style := JStr "casual";
                    jr_background := field fields "background" JNull |}) /\
     forall fuel w,
       http_status
         (post_generate_avatar API_KEY AVATAR_ENDPOINT py_str json_dumps net fuel req w).1.1
         <> Some 400).
Proof.
  assert (Hharry : catalog_styles (JStr "harry") = Some ["business"; "casual"; "youthful"])
    by (vm_compute; reflexivity).
  split_and!.
  - reflexivity.
  - eexists. split; [exact Hharry|reflexivity].
  - intros req fields j Hdata. unfold validate. rewrite Hdata. cbn [py_get rbind].
    unfold rbind, field. intros H.
    repeat case_match; simplify_eq; done.
  - intros req fields s Hauth Hdata Htext He Hv Hc Hs.
    assert (Hval : validate py_str req
       = Ok (inr {| jr_text := strip s;
                    jr_voice := JStr "th-TH-NiwatNeural";
                    jr_character := JStr "harry";
                    jr_style := JStr "casual";
                    jr_background := field fields "background" JNull |})).
    { assert (Hhash : hashable (field fields "talkingAvatarCharacter" (JStr "harry")) = true)
        by (unfold field; by rewrite Hc).
      rewrite (validate_eq req fields s Hdata Htext Hhash). cbv zeta.
      rewrite (proj2 (String.eqb_neq _ _) He).
      assert (Fv : field fields "voice" (JStr "th-TH-NiwatNeural") = JStr "th-TH-NiwatNeural")
        by (unfold field; by rewrite Hv).
      assert (Fc : field fields "talkingAvatarCharacter" (JStr "harry") = JStr "harry")
        by (unfold field; by rewrite Hc).
      assert (Fs : field fields "talkingAvatarStyle" (JStr "casual") = JStr "casual")
        by (unfold field; by rewrite Hs).
      rewrite !Fv, !Fc, !Fs, Hharry. reflexivity. }
    split; [exact Hval|]. intros fuel w.
    rewrite route_eq, Hauth, Hval.
    destruct (pipeline _ _ _ _ _ _ _) as [[[r|e|] w'] tr] eqn:P; cbn [fst http_status].
    + apply pipeline_ok_code in P. rewrite P. discriminate.
    + rewrite on_exception_code. destruct e; discriminate.
    + discriminate.
Qed.

(** Supplying a wrong key in the header is refused with 401 whatever the
    body is. *)
Lemma wrong_header_key_is_401 (fuel : nat) (req : request) (w : world) (h : string) :
  x_api_key req = Some h -> h <> "" -> h <> API_KEY ->
  post_generate_avatar API_KEY AVATAR_ENDPOINT py_str json_dumps net fuel req w
    = (Sent (error_response "Invalid or missing API key" 401), w, []).
Proof.
  intros Hh Hne Hbad. rewrite route_eq. unfold authorize, provided_key.
  rewrite Hh. cbn [truthy]. rewrite (proj2 (String.eqb_neq _ _) Hne).
  cbn [negb rbind py_eq_str]. by rewrite (proj2 (String.eqb_neq _ _) Hbad).
Qed.

(** With no key in the header, a wrong or missing key in a body that is a
    JSON object is refused with 401. *)
Lemma wrong_body_key_is_401 (fuel : nat) (req : request) (w : world)
    (fields : list (string * json)) :
  x_api_key req = None ->
  body req = Decoded (JObj fields) ->
  py_eq_str (field fields "key" JNull) API_KEY = false ->
  post_generate_avatar API_KEY AVATAR_ENDPOINT py_str json_dumps net fuel req w
    = (Sent (error_response "Invalid or missing API key" 401), w, []).
Proof.
  intros Hh Hb Hbad. rewrite route_eq. unfold authorize, provided_key, request_json.
  rewrite Hh, Hb. cbn [truthy rbind py_get]. fold (field fields "key" JNull).
  by rewrite Hbad.
Qed.

(** C2, where the code departs from it. With no key in the header, the
    route reads the key from [request.json] before anything else; when the
    body is not a JSON object that read raises, and the client gets Flask's
    error page (400, 415 or 500) instead of the 401 response. *)
Theorem missing_key_unreadable_body (fuel : nat) (w : world) :
  post_generate_avatar API_KEY AVATAR_ENDPOINT py_str json_dumps net fuel
    {| x_api_key := None; body := Malformed |} w = (ErrorPage 400, w, []) /\
  post_generate_avatar API_KEY AVATAR_ENDPOINT py_str json_dumps net fuel
    {| x_api_key := None; body := NotJson |} w = (ErrorPage 415, w, []) /\
  post_generate_avatar API_KEY AVATAR_ENDPOINT py_str json_dumps net fuel
    {| x_api_key := None; body := Decoded (JArr [JStr "text"]) |} w = (ErrorPage 500, w, []) /\
  post_generate_avatar API_KEY AVATAR_ENDPOINT py_str json_dumps net fuel
    {| x_api_key := None; body := Decoded JNull |} w = (ErrorPage 500, w, []).
Proof. rewrite !route_eq. by split_and!. Qed.

(** ** The route: what it calls, what it answers *)

Lemma provided_key_not_diverge (req : request) : provided_key req <> Diverge.
Proof.
  unfold provided_key, request_json, py_get, rbind. repeat case_match; congruence.
Qed.

Lemma authorize_not_diverge (req : request) : authorize API_KEY req <> Diverge.
Proof.
  unfold authorize, rbind. pose proof (provided_key_not_diverge req).
  repeat case_match; congruence.
Qed.

Lemma rbind_not_diverge {A B} (m : result A) (f : A -> result B) :
  m <> Diverge -> (forall a, f a <> Diverge) -> rbind m f <> Diverge.
Proof. destruct m; cbn; auto. Qed.

Lemma py_get_not_diverge (d : json) (key : string) (default : json) :
  py_get d key default <> Diverge.
Proof. by destruct d. Qed.

Lemma validate_not_diverge (req : request) : validate py_str req <> Diverge.
Proof.
  unfold validate. cbv zeta.
  apply rbind_not_diverge; [apply py_get_not_diverge|intros raw].
  apply rbind_not_diverge; [by destruct raw|intros text].
  destruct (String.eqb text ""); [done|].
  apply rbind_not_diverge; [apply py_get_not_diverge|intros voice].
  apply rbind_not_diverge; [apply py_get_not_diverge|intros character].
  apply rbind_not_diverge; [apply py_get_not_diverge|intros style].
  apply rbind_not_diverge; [apply py_get_not_diverge|intros background].
  destruct (negb (in_str_list voice ALL_VOICES)); [done|].
  apply rbind_not_diverge; [by destruct character|intros known].
  destruct (negb known); [done|].
  apply rbind_not_diverge; [|intros styles; by destruct (negb _)].
  unfold dict_getitem. destruct character; try done. by destruct (AVATARS !! s).
Qed.

Lemma authorize_denied (req : request) (r : response) :
  authorize API_KEY req = Ok (Some r) ->
  r = error_response "Invalid or missing API key" 401.
Proof.
  unfold authorize, rbind. destruct (provided_key req) as [key|e|]; try discriminate.
  destruct (negb _); by intros [= <-].
Qed.

Lemma validate_invalid (req : request) (r : response) :
  validate py_str req = Ok (inl r) -> exists msg, r = error_response msg 400.
Proof.
  unfold validate, rbind. intros H.
  repeat case_match; simplify_eq; eauto.
Qed.




(** X3. The background. For a request that passed the checks, the job's
    avatar configuration holds the request's [background] as
    [backgroundImage] when that value is truthy, whatever its type, and
    the solid white [backgroundColor] otherwise (missing, null, empty
    string, zero, empty array or object); never both. *)
Theorem background_image_or_white
    (req : request) (fields : list (string * json)) (j : job_request) :
  request_data req = JObj fields ->
  validate py_str req = Ok (inr j) ->
  jr_background j = field fields "background" JNull /\
  exists pf cfg,
    job_payload (jr_text j) (jr_voice j) (jr_character j) (jr_style j) (jr_background j)
      = JObj pf /\
    assoc "avatarConfig" pf = Some (JObj cfg) /\
    if truthy (field fields "background" JNull)
    then assoc "backgroundImage" cfg = Some (field fields "background" JNull) /\
         assoc "backgroundColor" cfg = None
    else assoc "backgroundImage" cfg = None /\
         assoc "backgroundColor" cfg = Some (JStr "#FFFFFFFF").
Proof.
  intros Hdata Hval.
  assert (Hb : jr_background j = field fields "background" JNull).
  { revert Hval. unfold validate. rewrite Hdata. cbn [py_get rbind].
    unfold rbind, field. intros H. repeat case_match; simplify_eq; done. }
  split; [exact Hb|]. rewrite Hb. unfold job_payload.
  eexists _, _. split; [reflexivity|]. split; [reflexivity|].
  destruct (truthy (field fields "background" JNull)); split; reflexivity.
Qed.

Lemma poll_avatar_job_targets (fuel : nat) (job : string) (timeout interval : Z)
    (w w' : world) (res : result json) (tr : list event) :
  poll_avatar_job AVATAR_ENDPOINT json_dumps net fuel job timeout interval w = (res, w', tr) ->
  forallb (is_query_of (job_url AVATAR_ENDPOINT job)) tr = true.
Proof.
  rewrite poll_avatar_job_eq. intros H. apply poll_loop_run in H as [H _].
  by eapply poll_run_targets.
Qed.

Lemma poll_avatar_job_returns (fuel : nat) (job : string) (timeout interval : Z)
    (w w' : world) (v : json) (tr : list event) :
  poll_avatar_job AVATAR_ENDPOINT json_dumps net fuel job timeout interval w = (Ok v, w', tr) ->
  exists ev r, last tr = Some ev /\ status_reply ev = Some r /\ reports_succeeded r v.
Proof.
  rewrite poll_avatar_job_eq. intros H. apply poll_loop_run in H as [H _].
  destruct (poll_run_returns _ _ _ _ _ _ _ _ _ _ _ _ _ H eq_refl) as (ev & r & L & S' & V).
  exists ev, r. split_and!; auto. by eapply on_status_reply_returns.
Qed.

(** X6. The order of the calls. Whatever the outcome, a run of the route
    that calls anything calls, in this order: the job submission, once;
    status queries of that job, none when the submission was refused;
    then at most one download, of the URL that the last status reply
    reported with [Succeeded]; then at most one upload, of the temporary
    file, and only after a download that was answered without error
    status. *)
Theorem route_call_order
    (fuel : nat) (req : request) (w w' : world) (out : outcome) (tr : list event) :
  post_generate_avatar API_KEY AVATAR_ENDPOINT py_str json_dumps net fuel req w
    = (out, w', tr) ->
  tr = [] \/
  exists e_put queries transfers,
    tr = e_put :: queries ++ transfers /\
    is_put e_put = true /\
    forallb (is_query_of (job_url AVATAR_ENDPOINT (uuid4 net))) queries = true /\
    (submission_failed e_put = true -> queries = [] /\ transfers = []) /\
    match transfers with
    | [] => True
    | e_dl :: rest =>
        (exists q r u t0 t1 a,
           last queries = Some q /\ status_reply q = Some r /\
           reports_succeeded r (JStr u) /\ e_dl = EvDownload u t0 t1 a) /\
        match rest with
        | [] => True
        | e_up :: more =>
            more = [] /\ download_answered e_dl = true /\
            exists t0 t1 a, e_up = EvUpload (temp_name net) t0 t1 a
        end
    end.
Proof.
  route_paths.
  all: try (left; reflexivity).
  all: right.
  all: first [ eexists _, _, _; split; [reflexivity|]
             | eexists _, _, []; split; [by rewrite app_nil_r|] ].
  all: split; [reflexivity|].
  all: split; [first [reflexivity | by eapply poll_avatar_job_targets]|].
  all: split; [first [ by intros
                     | cbn [submission_failed]; rewrite Z.geb_leb in Hcode; congruence ]|].
  all: try exact I.
  all: apply poll_avatar_job_returns in Hpoll as (q & r1 & Hl & Hr & Hs).
  all: split; [by eexists q, r1, _, _, _, _|].
  all: try exact I.
  all: split_and!; [reflexivity|cbn [download_answered]; by rewrite Hok|by eexists _, _, _].
Qed.

(** X4. The status codes. The route answers with 200, 400, 401, 500, 502 or
    504 only, and every response other than the 200 one is an object with
    the single field [error], a string; when an exception leaves the route
    the client gets Flask's page for 400, 415 or 500. *)
Theorem route_status_codes
    (fuel : nat) (req : request) (w w' : world) (out : outcome) (tr : list event) :
  post_generate_avatar API_KEY AVATAR_ENDPOINT py_str json_dumps net fuel req w
    = (out, w', tr) ->
  match out with
  | Sent r =>
      In (code r) route_codes /\
      (code r <> 200 -> exists msg, content r = JObj [("error", JStr msg)])
  | ErrorPage c => In c page_codes
  | NoResponse => True
  end.
Proof.
  route_paths.
  all: try (apply authorize_denied in Hauth as ->).
  all: try (apply validate_invalid in Hval as [? ->]).
  all: try exact I.
  all: try match goal with
           | |- context [error_page ?e] => destruct e as [?|?|[] ?]
           | |- context [on_exception ?e] => is_var e; destruct e
           end.
  all: cbn [error_page on_exception error_response code content route_codes page_codes In].
  all: try (split; [tauto|]; intros; eauto; done).
  all: tauto.
Qed.

(** X7. What a 200 response means. A run of the route that answers 200 has
    made, in this order: the submission (not refused), one or more status
    queries for that job, the last of which reported success with a result
    URL, the download of that URL (answered without error status), and
    the upload of the temporary file; the response carries the secure URL
    the media host returned and the id of the job. *)
Theorem success_runs_every_step
    (fuel : nat) (req : request) (w w' : world) (out : outcome) (tr : list event) :
  post_generate_avatar API_KEY AVATAR_ENDPOINT py_str json_dumps net fuel req w
    = (out, w', tr) ->
  http_status out = Some 200 ->
  exists e_put queries q r u e_dl e_up result cu,
    tr = e_put :: queries ++ [e_dl; e_up] /\
    is_put e_put = true /\ submission_failed e_put = false /\
    forallb (is_query_of (job_url AVATAR_ENDPOINT (uuid4 net))) queries = true /\
    last queries = Some q /\ status_reply q = Some r /\ reports_succeeded r (JStr u) /\
    (exists t0 t1 a, e_dl = EvDownload u t0 t1 a) /\ download_answered e_dl = true /\
    (exists t0 t1 took, e_up = EvUpload (temp_name net) t0 t1 (Stored took result)) /\
    assoc "secure_url" result = Some cu /\
    out = Sent {| code := 200;
                  content := JObj [ ("success", JBool true);
                                    ("video_url", cu);
                                    ("job_id", JStr (uuid4 net)) ] |}.
Proof.
  route_paths.
  all: try (apply authorize_denied_code in Hauth).
  all: try (apply validate_invalid_code in Hval).
  all: cbn [http_status on_exception error_response code].
  all: try rewrite on_exception_code.
  all: intros H200.
  all: try discriminate.
  all: try (exfalso; exact (error_page_not_200 _ H200)).
  all: try (repeat case_match; congruence).
  apply poll_avatar_job_targets in Hpoll as Hc.
  apply poll_avatar_job_returns in Hpoll as (q & r1 & Hl & Hr & Hs).
  eexists _, _, q, r1, _, _, _, _, _. split_and!; try reflexivity; try eassumption.
  - cbn [submission_failed]. lia.
  - eauto.
  - cbn [download_answered]. by rewrite Hok.
  - eauto.
Qed.

(** A status reply found in the trace of the route was a query of the
    polling. *)
Lemma status_reply_in_queries (ev e1 : event) (r : http_reply) (l rest : list event) :
  status_reply ev = Some r ->
  In ev (e1 :: l ++ rest) ->
  is_status_query e1 = false ->
  existsb is_status_query rest = false ->
  In ev l.
Proof.
  intros Hr [<-|Hin] H1 H2.
  - destruct e1; try done.
  - apply in_app_or in Hin as [Hin|Hin]; [exact Hin|].
    exfalso. assert (existsb is_status_query rest = true); [|congruence].
    apply existsb_exists. exists ev. split; [exact Hin|]. by destruct ev.
Qed.

Lemma last_cons_app (e1 ev : event) (l : list event) :
  last l = Some ev -> last (e1 :: l) = Some ev.
Proof. destruct l; [done|]. intros H. exact H. Qed.

Lemma on_status_reply_http_error (url : string) (r : http_reply) :
  is_http_error (resp_status r) = true ->
  exists msg, on_status_reply json_dumps url r = Raise (LibraryError HTTPError msg).
Proof.
  intros H. destruct (raise_for_status_error url r H) as [msg E].
  exists msg. unfold on_status_reply. by rewrite E.
Qed.

(** Picks, in each path of the route, the polling whose trace holds the
    status event of [Hin], and what the reply [r] of that event made of it. *)
Ltac status_event Hin Hr :=
  first
    [ done
    | destruct Hin as [<-|[]]; done
    | match type of Hin with
      | In _ (_ :: ?l) =>
          first [ is_var l; rewrite <- (app_nil_r l) in Hin | idtac ]
      end;
      apply (status_reply_in_queries _ _ _ _ _ Hr) in Hin; [|reflexivity|reflexivity];
      match goal with
      | Hp : poll_avatar_job _ _ _ _ _ _ _ _ = _ |- _ =>
          pose proof (poll_avatar_job_at _ _ _ _ _ _ _ _ _ _ _ _ _ Hp Hin Hr) as Hat
      end ].

(** X8. A failed job. When a status reply of a run says [Failed], the route
    answers 502 with a message that carries the reply's decoded body; that
    query is the last call of the run: nothing is downloaded or uploaded
    and no file is created. *)
Theorem failed_job_is_502
    (fuel : nat) (req : request) (w w' : world) (out : outcome) (tr : list event)
    (ev : event) (r : http_reply) (data : json) :
  post_generate_avatar API_KEY AVATAR_ENDPOINT py_str json_dumps net fuel req w
    = (out, w', tr) ->
  In ev tr -> status_reply ev = Some r -> reports_failed r data ->
  out = Sent (error_response ("Avatar job failed: " +:+ json_dumps data) 502) /\
  last tr = Some ev /\
  existsb is_transfer tr = false /\
  tmpfiles w' = tmpfiles w.
Proof.
  route_paths; intros Hin Hr Hf.
  all: status_event Hin Hr.
  all: rewrite (on_status_reply_failed _ _ _ _ Hf) in Hat; destruct Hat as [Hres Hlast].
  all: try discriminate.
  injection Hres as ->. destruct Hq as (Hq & Hfiles & _).
  split_and!.
  - reflexivity.
  - by apply last_cons_app.
  - cbn [existsb is_transfer orb]. apply status_queries_only; [by intros []|exact Hq].
  - exact Hfiles.
Qed.

(** X9. An error status on a status query. When a status query of a run is
    answered with an error status (400 to 599), the route answers 500 and
    that query is the last call of the run: the query is not repeated. *)
Theorem failed_status_query_is_500
    (fuel : nat) (req : request) (w w' : world) (out : outcome) (tr : list event)
    (ev : event) (r : http_reply) :
  post_generate_avatar API_KEY AVATAR_ENDPOINT py_str json_dumps net fuel req w
    = (out, w', tr) ->
  In ev tr -> status_reply ev = Some r -> is_http_error (resp_status r) = true ->
  http_status out = Some 500 /\ last tr = Some ev.
Proof.
  route_paths; intros Hin Hr Hf.
  all: status_event Hin Hr.
  all: destruct (on_status_reply_http_error (job_url AVATAR_ENDPOINT (uuid4 net)) r Hf)
         as [msg Hm].
  all: rewrite Hm in Hat; destruct Hat as [Hres Hlast].
  all: try discriminate.
  injection Hres as ->. split; [reflexivity|by apply last_cons_app].
Qed.

(** X10. The clock. The response of a run is never sent before the request
    came, and a 504 response is never sent earlier than 600 seconds after
    it, whatever the provider answered; a run that answers 504 has neither
    downloaded nor uploaded anything. *)
Theorem gateway_timeout_takes_600_seconds
    (fuel : nat) (req : request) (w w' : world) (out : outcome) (tr : list event) :
  post_generate_avatar API_KEY AVATAR_ENDPOINT py_str json_dumps net fuel req w
    = (out, w', tr) ->
  clock w <= clock w' /\
  (http_status out = Some 504 ->
     clock w + seconds 600 <= clock w' /\ existsb is_transfer tr = false).
Proof.
  route_paths.
  all: try (apply authorize_denied_code in Hauth).
  all: try (apply validate_invalid_code in Hval).
  all: try (destruct Hq as (Hq & Hfiles & Hclock)).
  all: cbn [clock advance with_temp_file without_temp_file took_of upload_took] in *.
  all: split; [lia|].
  all: cbn [http_status on_exception error_response code].
  all: try rewrite on_exception_code.
  all: intros H504.
  all: try discriminate.
  all: try congruence.
  all: try (exfalso; by destruct e as [?|?|[] ?]).
  destruct e; try discriminate.
  apply poll_avatar_job_timeout_clock in Hpoll. cbn [clock advance] in Hpoll.
  split; [lia|].
  cbn [existsb is_transfer orb]. apply status_queries_only; [by intros []|exact Hq].
Qed.

(** X11. The other files. A run of the route leaves every file of the
    temporary directory other than its own temporary file as it was; and
    unless its download was answered without error status, it leaves the
    directory exactly as it was. *)
Theorem other_files_untouched
    (fuel : nat) (req : request) (w w' : world) (out : outcome) (tr : list event) :
  post_generate_avatar API_KEY AVATAR_ENDPOINT py_str json_dumps net fuel req w
    = (out, w', tr) ->
  (forall p, p <> temp_name net -> (p ∈ tmpfiles w' <-> p ∈ tmpfiles w)) /\
  (existsb download_answered tr = false -> tmpfiles w' = tmpfiles w).
Proof.
  route_paths.
  all: try (destruct Hq as (Hq & Hfiles & _)).
  all: cbn [existsb download_answered orb].
  all: try only_queries Hq.
  all: cbn [tmpfiles advance with_temp_file without_temp_file existsb
            download_answered orb] in *.
  all: try rewrite Hok; try rewrite Hko; cbn [negb orb].
  all: try rewrite Hfiles.
  all: split; [intros p Hp|intros Hd; first [reflexivity|discriminate]].
  all: try reflexivity.
  all: rewrite ?elem_of_difference, ?elem_of_union, !elem_of_singleton; tauto.
Qed.

(** X12. [download_file] alone. If it returns, it returns the name of the
    file it created, which is in the directory from then on, and the
    download was answered without error status. If the download was not so
    answered (error status, no answer, or a URL that is not a string), it
    raises and creates no file; for a URL that is not a string it makes no
    call at all. *)
Theorem download_file_creates_file_last
    (url : json) (w w' : world) (res : result string) (tr : list event) :
  download_file py_str net url w = (res, w', tr) ->
  (forall p, res = Ok p ->
     p = temp_name net /\ tmpfiles w' = {[ p ]} ∪ tmpfiles w /\
     existsb download_answered tr = true) /\
  (existsb download_answered tr = false ->
     tmpfiles w' = tmpfiles w /\ exists e, res = Raise e) /\
  ((forall u, url <> JStr u) -> tr = [] /\ w' = w) /\
  (length tr <= 1)%nat.
Proof.
  unfold download_file.
  destruct url as [| | | |u| |]; try (intros [= <- <- <-]; split_and!; eauto; done).
  unfold bind at 1 2. unfold perform.
  destruct (download_answer net u) as [took why|took r].
  { intros [= <- <- <-]. split_and!; eauto; try done. intros H. by specialize (H u). }
  cbn [took_of]. unfold lift at 1.
  destruct (raise_for_status_spec u r) as [[Hok ->]|[Hko [msg ->]]].
  2:{ intros [= <- <- <-]. cbn [existsb download_answered orb]. rewrite Hko.
      split_and!; eauto; try done. intros H. by specialize (H u). }
  unfold named_temporary_file, bind at 1. cbn [clock tmpfiles advance].
  destruct (stream_error net) as [why|].
  - intros [= <- <- <-]. cbn [existsb download_answered orb tmpfiles]. rewrite Hok.
    split_and!; eauto; try done. intros H. by specialize (H u).
  - intros [= <- <- <-]. cbn [existsb download_answered orb tmpfiles]. rewrite Hok.
    split_and!; eauto; try done.
    + by intros p [= <-].
    + intros H. by specialize (H u).
Qed.

(** X1. Who is let in. The route accepts the key of a request exactly when
    the [X-API-Key] header is non-empty and equal to the key, or the header
    is missing or empty and the body is a JSON object whose [key] is the
    key as a string. A non-empty header decides alone: the body is not
    looked at, so a wrong header is refused with 401 even if the body holds
    the right key. *)
Theorem authorize_accepts_iff (req : request) :
  (authorize API_KEY req = Ok None <->
   (exists h, x_api_key req = Some h /\ h <> "" /\ h = API_KEY) \/
   ((x_api_key req = None \/ x_api_key req = Some "") /\
    exists fields, body req = Decoded (JObj fields) /\
                   assoc "key" fields = Some (JStr API_KEY))) /\
  (forall h, x_api_key req = Some h -> h <> "" -> h <> API_KEY ->
     authorize API_KEY req = Ok (Some (error_response "Invalid or missing API key" 401))).
Proof.
  split.
  - unfold authorize, provided_key, request_json.
    destruct (x_api_key req) as [h|] eqn:Hh; cbn [truthy].
    + destruct (String.eqb_spec h "") as [->|Hne]; cbn [negb].
      * destruct (body req) as [| |j] eqn:Hb; cbn [rbind].
        1,2: split; [done|]; intros [(h & ? & ? & ?)|(_ & fields & ? & _)]; congruence.
        destruct j as [| | | | | |fields]; cbn [py_get rbind];
          try (split; [done|]; intros [(h & ? & ? & ?)|(_ & fields & ? & _)]; congruence).
        destruct (assoc "key" fields) as [v|] eqn:Hk.
        -- destruct v as [| | | |k| |]; cbn [py_eq_str negb];
             try (split; [done|];
                  intros [(h & ? & ? & ?)|(_ & f0 & ? & ?)]; simplify_eq; congruence).
           destruct (String.eqb_spec k API_KEY) as [->|Hk']; cbn [negb].
           ++ split; [|done]. intros _. right. split; [by right|]. by exists fields.
           ++ split; [done|].
              intros [(h & ? & ? & ?)|(_ & f0 & ? & ?)]; simplify_eq; congruence.
        -- cbn [py_eq_str negb]. split; [done|].
           intros [(h & ? & ? & ?)|(_ & f0 & ? & ?)]; simplify_eq; congruence.
      * cbn [rbind py_eq_str].
        destruct (String.eqb_spec h API_KEY) as [->|Hbad]; cbn [negb].
        -- split; [|done]. intros _. left. by exists API_KEY.
        -- split; [done|].
           intros [(h' & ? & ? & ?)|([?|?] & _)]; simplify_eq; congruence.
    + destruct (body req) as [| |j] eqn:Hb; cbn [rbind].
      1,2: split; [done|]; intros [(h & ? & ? & ?)|(_ & fields & ? & _)]; congruence.
      destruct j as [| | | | | |fields]; cbn [py_get rbind];
        try (split; [done|]; intros [(h & ? & ? & ?)|(_ & fields & ? & _)]; congruence).
      destruct (assoc "key" fields) as [v|] eqn:Hk.
      * destruct v as [| | | |k| |]; cbn [py_eq_str negb];
          try (split; [done|];
               intros [(h & ? & ? & ?)|(_ & f0 & ? & ?)]; simplify_eq; congruence).
        destruct (String.eqb_spec k API_KEY) as [->|Hk']; cbn [negb].
        -- split; [|done]. intros _. right. split; [by left|]. by exists fields.
        -- split; [done|].
           intros [(h & ? & ? & ?)|(_ & f0 & ? & ?)]; simplify_eq; congruence.
      * cbn [py_eq_str negb]. split; [done|].
        intros [(h & ? & ? & ?)|(_ & f0 & ? & ?)]; simplify_eq; congruence.
  - intros h Hh Hne Hbad. unfold authorize, provided_key.
    rewrite Hh. cbn [truthy]. rewrite (proj2 (String.eqb_neq _ _) Hne).
    cbn [negb rbind py_eq_str]. by rewrite (proj2 (String.eqb_neq _ _) Hbad).
Qed.

End Route.

(** ** Start-up *)

Lemma env_missing_false (env : gmap string string) (var : string) :
  env_missing env var = false <-> exists v, env !! var = Some v /\ v <> "".
Proof.
  unfold env_missing. destruct (env !! var) as [v|].
  - destruct (String.eqb_spec v "") as [->|Hne].
    + split; [done|]. intros (v & [= <-] & ?). done.
    + split; [eauto|done].
  - split; [done|]. by intros (v & ? & _).
Qed.

Lemma check_env_ok (env : gmap string string) (vars : list string) :
  check_env env vars = Ok tt <-> forall v, In v vars -> env_missing env v = false.
Proof.
  induction vars as [|var rest IH]; cbn [check_env In]; [done|].
  destruct (env_missing env var) eqn:E.
  - split; [done|]. intros H. specialize (H var (or_introl eq_refl)). congruence.
  - rewrite IH. split.
    + intros H v [<-|Hv]; auto.
    + intros H v Hv. apply H. by right.
Qed.

Lemma check_env_raise (env : gmap string string) (vars : list string) (e : exn) :
  check_env env vars = Raise e ->
  exists before v after,
    vars = before ++ v :: after /\
    (forall u, In u before -> env_missing env u = false) /\
    env_missing env v = true /\
    e = RuntimeError ("Missing env var: " +:+ v).
Proof.
  induction vars as [|var rest IH]; cbn [check_env]; [done|].
  destruct (env_missing env var) eqn:E.
  - intros [= <-]. exists [], var, rest. split_and!; auto. by intros u [].
  - intros H. destruct (IH H) as (before & v & after & -> & Hb & Hv & ->).
    exists (var :: before), v, after. split_and!; auto.
    intros u [<-|Hu]; auto.
Qed.

Lemma check_env_not_diverge (env : gmap string string) (vars : list string) :
  check_env env vars <> Diverge.
Proof. induction vars as [|var rest IH]; cbn [check_env]; [done|]. by case_match. Qed.

Lemma rstrip_slash_empty (s : string) :
  rstrip_by is_slash s = "" <-> all_slash s = true.
Proof.
  induction s as [|c s IH]; cbn [rstrip_by all_slash]; [done|].
  destruct (rstrip_by is_slash s) as [|c' r].
  - destruct (is_slash c); cbn [andb]; [|done].
    split; [intros _; by apply IH|done].
  - split; [done|]. intros [_ H]%andb_true_iff. apply IH in H. done.
Qed.

Lemma rstrip_slash_split (s : string) :
  exists slashes, s = rstrip_by is_slash s +:+ slashes /\ all_slash slashes = true.
Proof.
  induction s as [|c s (slashes & Hs & Ha)]; [by exists ""|].
  cbn [rstrip_by]. destruct (rstrip_by is_slash s) as [|c' r] eqn:E.
  - rewrite append_nil_l in Hs. subst slashes.
    destruct (is_slash c) eqn:Ec.
    + exists (String c s). split; [reflexivity|]. cbn [all_slash]. by rewrite Ec, Ha.
    + exists s. split; [reflexivity|exact Ha].
  - exists slashes. split; [|exact Ha]. rewrite !append_cons. by rewrite <- append_cons, <- Hs.
Qed.

Lemma rstrip_slash_idem (s : string) :
  rstrip_by is_slash (rstrip_by is_slash s) = rstrip_by is_slash s.
Proof.
  induction s as [|c s IH]; [reflexivity|]. cbn [rstrip_by].
  destruct (rstrip_by is_slash s) as [|c' r] eqn:E.
  - destruct (is_slash c) eqn:Ec; [reflexivity|]. cbn [rstrip_by]. by rewrite Ec.
  - change (rstrip_by is_slash (String c (String c' r)))
      with (match rstrip_by is_slash (String c' r) with
            | EmptyString => if is_slash c then EmptyString else String c EmptyString
            | String a r0 => String c (String a r0)
            end).
    by rewrite IH.
Qed.

Lemma rstrip_slash_append (s slashes : string) :
  all_slash slashes = true ->
  rstrip_by is_slash (s +:+ slashes) = rstrip_by is_slash s.
Proof.
  intros Ha. induction s as [|c s IH].
  - rewrite append_nil_l. by apply rstrip_slash_empty.
  - rewrite append_cons. cbn [rstrip_by]. by rewrite IH.
Qed.

(** X15. The start-up check. The module gets past its check exactly when each
    of the six variables is set and not empty; otherwise it raises
    [RuntimeError] naming the first variable, in the order of the tuple,
    that is unset or empty. Past the check the API key is a non-empty
    string. *)
Theorem startup_requires_every_variable (env : gmap string string) :
  ((exists c, load_config env = Ok c) <->
   forall v, In v REQUIRED_VARS -> exists x, env !! v = Some x /\ x <> "") /\
  (forall e, load_config env = Raise e ->
     exists before v after,
       REQUIRED_VARS = before ++ v :: after /\
       (forall u, In u before -> exists x, env !! u = Some x /\ x <> "") /\
       env_missing env v = true /\
       e = RuntimeError ("Missing env var: " +:+ v)) /\
  (forall c, load_config env = Ok c ->
     exists k, cfg_api_key c = Some k /\ k <> "" /\ env !! "API_KEY" = Some k).
Proof.
  unfold load_config. cbv zeta. split_and!.
  - destruct (check_env env REQUIRED_VARS) as [[]|e|] eqn:E; cbn [rbind].
    + split; [intros _|eauto].
      intros v Hv. apply env_missing_false. by apply (proj1 (check_env_ok _ _) E).
    + split; [by intros [c ?]|]. intros H. exfalso.
      assert (check_env env REQUIRED_VARS = Ok tt); [|congruence].
      apply check_env_ok. intros v Hv. apply env_missing_false. by apply H.
    + by apply check_env_not_diverge in E.
  - intros e. destruct (check_env env REQUIRED_VARS) as [[]|e'|] eqn:E; cbn [rbind];
      try discriminate.
    intros [= ->]. destruct (check_env_raise _ _ _ E) as (before & v & after & ? & Hb & ? & ?).
    exists before, v, after. split_and!; auto.
    intros u Hu. apply env_missing_false. by apply Hb.
  - intros c. destruct (check_env env REQUIRED_VARS) as [[]|e'|] eqn:E; cbn [rbind];
      try discriminate.
    intros [= <-]. cbn [cfg_api_key].
    pose proof (proj1 (check_env_ok _ _) E "API_KEY" ltac:(by left)) as Hk.
    apply env_missing_false in Hk as (k & Hk & Hne). exists k. by rewrite Hk.
Qed.

(** X16. The endpoint. Past the check, the endpoint the URLs are built from
    is the variable without its trailing slashes: it does not end with a
    slash, and any number of slashes added to the variable changes
    nothing. The check looks at the variable as given, so an endpoint made
    of slashes only passes it and leaves an empty base URL. *)
Theorem endpoint_loses_trailing_slashes (env : gmap string string) (c : config) :
  load_config env = Ok c ->
  exists raw slashes,
    env !! "AZURE_AVATAR_ENDPOINT" = Some raw /\ raw <> "" /\
    raw = cfg_endpoint c +:+ slashes /\ all_slash slashes = true /\
    rstrip_by is_slash (cfg_endpoint c) = cfg_endpoint c /\
    (forall more, all_slash more = true ->
       rstrip_by is_slash (raw +:+ more) = cfg_endpoint c) /\
    (cfg_endpoint c = "" <-> all_slash raw = true).
Proof.
  unfold load_config. cbv zeta.
  destruct (check_env env REQUIRED_VARS) as [[]|e'|] eqn:E; cbn [rbind]; try discriminate.
  intros [= <-]. cbn [cfg_endpoint].
  pose proof (proj1 (check_env_ok _ _) E "AZURE_AVATAR_ENDPOINT"
                ltac:(cbn; tauto)) as Hk.
  apply env_missing_false in Hk as (raw & Hk & Hne). rewrite Hk.
  destruct (rstrip_slash_split raw) as (slashes & Hs & Ha).
  exists raw, slashes. split_and!; auto.
  - apply rstrip_slash_idem.
  - intros more Hm. by apply rstrip_slash_append.
  - apply rstrip_slash_empty.
Qed.

(** ** The read-only routes *)

Lemma in_str_list_iff (v : json) (l : list string) :
  in_str_list v l = true <-> exists s, v = JStr s /\ In s l.
Proof.
  unfold in_str_list. rewrite existsb_exists. split.
  - intros (s & Hs & Hv). destruct v as [| | | |t| |]; try done.
    apply String.eqb_eq in Hv as ->. eauto.
  - intros (s & -> & Hs). exists s. split; [exact Hs|]. apply String.eqb_refl.
Qed.

Lemma json_strings_inj (l1 l2 : list string) :
  map JStr l1 = map JStr l2 -> l1 = l2.
Proof.
  revert l2.
  induction l1 as [|a l1 IH]; intros [|b l2]; cbn; try done.
  intros [= -> H]. f_equal. by apply IH.
Qed.

Lemma voices_listed (table : list (string * list string)) (voice : json) :
  in_str_list voice (concat (map snd table)) = true <->
  exists s gender names,
    voice = JStr s /\
    In (gender, json_strings names) (map (fun gv => (gv.1, json_strings gv.2)) table) /\
    In s names.
Proof.
  rewrite in_str_list_iff. split.
  - intros (s & -> & Hs). apply in_concat in Hs as (names & Hn & Hs).
    apply in_map_iff in Hn as ([gender names'] & <- & Hg).
    exists s, gender, names'. split; [reflexivity|]. split; [|exact Hs].
    apply in_map_iff. exists (gender, names'). split; [reflexivity|exact Hg].
  - intros (s & gender & names & -> & Hg & Hs).
    apply in_map_iff in Hg as ([g names'] & [= <- Hj] & Hg).
    apply json_strings_inj in Hj as ->.
    exists s. split; [reflexivity|]. apply in_concat. exists names.
    split; [|exact Hs]. apply in_map_iff. exists (g, names). split; [reflexivity|exact Hg].
Qed.

Lemma styles_listed (table : gmap string (list string)) (c : string) (names : list string) :
  In (c, json_strings names) (map (fun cs => (cs.1, json_strings cs.2)) (map_to_list table))
  <-> table !! c = Some names.
Proof.
  rewrite in_map_iff. split.
  - intros ([c' names'] & [= <- Hj] & Hc). apply json_strings_inj in Hj as ->.
    by apply list_elem_of_In, elem_of_map_to_list in Hc.
  - intros Hc. exists (c, names). split; [reflexivity|].
    by apply list_elem_of_In, elem_of_map_to_list.
Qed.

(** X17. The two listings. [GET /voices] and [GET /models] answer 200 with
    the tables the checks of [POST /generate-avatar] read: a voice passes
    the voice check exactly when it is a string listed under some gender
    by [/voices], and a character and style pass the character and style
    checks exactly when the style is a string listed under that character
    by [/models]. *)
Theorem listings_match_the_checks :
  code voices = 200 /\ code models = 200 /\
  exists genders characters,
    content voices = JObj [("voices", JObj genders)] /\
    content models = JObj [("avatars", JObj characters)] /\
    (forall voice,
       in_str_list voice ALL_VOICES = true <->
       exists s gender names,
         voice = JStr s /\ In (gender, json_strings names) genders /\ In s names) /\
    (forall character style,
       (exists styles, catalog_styles character = Some styles /\
                       in_str_list style styles = true) <->
       exists c s names,
         character = JStr c /\ style = JStr s /\
         In (c, json_strings names) characters /\ In s names).
Proof.
  split; [reflexivity|]. split; [reflexivity|].
  exists (map (fun gv => (gv.1, json_strings gv.2)) VOICES),
         (map (fun cs => (cs.1, json_strings cs.2)) (map_to_list AVATARS)).
  split; [reflexivity|]. split; [reflexivity|]. split.
  - intros voice. apply (voices_listed VOICES).
  - intros character style. split.
    + intros (styles & Hc & Hs). apply in_str_list_iff in Hs as (s & -> & Hs).
      destruct character as [| | | |c| |]; try discriminate Hc.
      cbn [catalog_styles] in Hc.
      exists c, s, styles. split; [reflexivity|]. split; [reflexivity|].
      split; [|exact Hs]. exact (proj2 (styles_listed AVATARS c styles) Hc).
    + intros (c & s & names & -> & -> & Hc & Hs).
      pose proof (proj1 (styles_listed AVATARS c names) Hc) as Hk.
      exists names. split; [exact Hk|]. apply in_str_list_iff.
      exists s. split; [reflexivity|exact Hs].
Qed.

(** ** The statements on the worked inputs *)

(** [utf8] and [strip] on the worked texts: characters of one to four
    bytes; the Thai text keeps its last letter, whose last byte is A0, and
    loses the white space around it, of one, two and three bytes. *)
Lemma strip_worked_texts :
  utf8 [0x41; 0xE9; 0x0E20; 0x1F600]%N = "Aéภ😀" /\
  thai_text = utf8 [0x0E2A; 0x0E27; 0x0E31; 0x0E2A; 0x0E14; 0x0E35; 0x0E20]%N /\
  strip padded_thai_text = thai_text /\
  strip thai_text = thai_text /\
  strip (utf8 [0x2003; 0x3000]%N) = "".
Proof. vm_compute. repeat split; reflexivity. Qed.

(** C8 on a job the provider refuses with 503 "try later". *)
Lemma create_avatar_job_status_witness :
  exists msg,
    (create_avatar_job sample_endpoint net_busy "hello" (JStr "th-TH-NiwatNeural")
       (JStr "harry") (JStr "casual") JNull world0).1.1 = Raise (RuntimeError msg) /\
    substringb (pretty 503) msg = true /\
    substringb "try later" msg = true.
Proof.
  apply (proj1 (create_avatar_job_status sample_endpoint net_busy "hello"
                  (JStr "th-TH-NiwatNeural") (JStr "harry") (JStr "casual") JNull world0
                  40%N (reply 503 "Service Unavailable" "try later" None) eq_refl)).
  vm_compute. discriminate.
Defined.

(** C7 on a provider that reports success on the third query. *)
Lemma poll_returns_on_nth_query_witness :
  let run := poll_avatar_job sample_endpoint no_rendering net_happy 10 "job-1" 600 5 world0 in
  run.1.1 = Ok (JStr "https://provider.example/v.mp4") /\
  length run.2 = 3%nat /\
  forallb is_status_query run.2 = true /\
  spaced (seconds 5) run.2.
Proof.
  cbv zeta.
  set (run := poll_avatar_job sample_endpoint no_rendering net_happy 10 "job-1" 600 5 world0).
  apply (poll_returns_on_nth_query sample_endpoint no_rendering net_happy 10 "job-1" 600 5
           world0 run.1.2 run.1.1 run.2 2
           (EvStatus (job_url sample_endpoint "job-1") 10000040 10000060 (third_time 2))
           (reply 200 "OK" "" (Some (succeeded_body "https://provider.example/v.mp4")))
           (JStr "https://provider.example/v.mp4")).
  - vm_compute. reflexivity.
  - vm_compute. reflexivity.
  - reflexivity.
  - exists [("status", JStr "Succeeded");
            ("outputs", JObj [("result", JStr "https://provider.example/v.mp4")])],
           [("result", JStr "https://provider.example/v.mp4")].
    repeat split; reflexivity.
Defined.

(** The verdicts on the same run: it returns on a reply that reports
    success. *)
Lemma poll_avatar_job_verdicts_witness :
  let run := poll_avatar_job sample_endpoint no_rendering net_happy 10 "job-1" 600 5 world0 in
  exists ev r,
    last run.2 = Some ev /\ status_reply ev = Some r /\
    reports_succeeded r (JStr "https://provider.example/v.mp4").
Proof.
  cbv zeta.
  set (run := poll_avatar_job sample_endpoint no_rendering net_happy 10 "job-1" 600 5 world0).
  apply (proj2 (poll_avatar_job_verdicts sample_endpoint no_rendering net_happy 10 "job-1"
                  600 5 world0 run.1.2 run.1.1 run.2
                  ltac:(vm_compute; reflexivity))).
  vm_compute. reflexivity.
Defined.

(** C1 on a result URL that answers 404. *)
Lemma failed_transfer_status_witness :
  http_status (serve net_gone 10 req_hello).1.1 = Some 500.
Proof.
  apply (proj1 (failed_transfer_status sample_key sample_endpoint no_rendering no_rendering
                  net_gone 10 req_hello world0
                  (serve net_gone 10 req_hello).1.2 (serve net_gone 10 req_hello).1.1
                  (serve net_gone 10 req_hello).2
                  ltac:(vm_compute; reflexivity))).
  vm_compute. reflexivity.
Defined.

(** C9 on a run where every step succeeds. *)
Lemma temp_file_deleted_on_success_only_witness :
  http_status (serve net_happy 10 req_hello).1.1 = Some 200 /\
  temp_name net_happy ∉ tmpfiles (serve net_happy 10 req_hello).1.2.
Proof.
  apply (proj1 (temp_file_deleted_on_success_only sample_key sample_endpoint no_rendering
                  no_rendering net_happy 10 req_hello world0
                  (serve net_happy 10 req_hello).1.2 (serve net_happy 10 req_hello).1.1
                  (serve net_happy 10 req_hello).2
                  ltac:(vm_compute; reflexivity))).
  vm_compute. reflexivity.
Defined.

(** C4 on a provider that answers [Pending] for ever. *)
Lemma polling_times_out_witness :
  exists resp w' tr,
    serve net_never 120 req_hello = (Sent resp, w', tr) /\
    code resp = 504 /\
    clock world0 + seconds 600 <= clock w'.
Proof.
  apply (proj2 (proj2 (polling_times_out sample_key sample_endpoint no_rendering no_rendering
                         net_never))
           (fun k => eq_refl) req_hello
           {| jr_text := "hello"; jr_voice := JStr "th-TH-NiwatNeural";
              jr_character := JStr "harry"; jr_style := JStr "casual";
              jr_background := JNull |}
           world0 40%N (reply 201 "Created" "" None)).
  - vm_compute. reflexivity.
  - vm_compute. reflexivity.
  - reflexivity.
  - vm_compute. reflexivity.
  - apply le_n.
Defined.

(** The checks on a request whose text, voice and character pass and whose
    (default) style does not. *)
Lemma validation_order_witness :
  serve net_happy 10 req_jeff
    = (Sent (error_response
               "Invalid style 'casual' for character 'jeff'. Valid: ['business', 'formal']"
               400), world0, []).
Proof.
  apply (proj2 (proj2 (proj2
           (validation_order sample_key sample_endpoint no_rendering no_rendering net_happy
              10 req_jeff world0
              [("text", JStr "hello"); ("talkingAvatarCharacter", JStr "jeff")] "hello"
              ltac:(vm_compute; reflexivity) eq_refl eq_refl)))
           ["business"; "formal"]).
  - vm_compute. discriminate.
  - vm_compute. reflexivity.
  - vm_compute. reflexivity.
  - vm_compute. reflexivity.
Defined.

(** C6 on the voice "robot", with a Thai text. *)
Lemma unknown_voice_rejected_witness :
  serve net_happy 10 req_thai_robot
    = (Sent (error_response "Invalid voice 'robot'. See GET /voices for options." 400),
       world0, []).
Proof.
  apply (unknown_voice_rejected sample_key sample_endpoint no_rendering no_rendering net_happy
           10 req_thai_robot world0
           [("text", JStr padded_thai_text); ("voice", JStr "robot")] padded_thai_text).
  - vm_compute. reflexivity.
  - reflexivity.
  - reflexivity.
  - vm_compute. discriminate.
  - vm_compute. reflexivity.
Defined.

(** C10 on a request that gives its text only, a Thai text: it passes the
    checks with the three defaults and the text without the white space
    around it. *)
Lemma defaults_pass_validation_witness :
  validate no_rendering req_thai = Ok (inr thai_job) /\
  http_status (serve net_happy 10 req_thai).1.1 <> Some 400.
Proof.
  pose proof (proj2 (proj2 (defaults_pass_validation sample_key sample_endpoint
                              no_rendering no_rendering net_happy))
                req_thai [("text", JStr padded_thai_text)] padded_thai_text
                ltac:(vm_compute; reflexivity) eq_refl eq_refl
                ltac:(vm_compute; discriminate) eq_refl eq_refl eq_refl) as [Hv Hs].
  split; [|exact (Hs 10%nat world0)]. rewrite Hv. vm_compute. reflexivity.
Defined.

(** C1 as stated fails: the download is answered 404, the upload is
    rejected, and the response is 500 both times, not the 502 of a failed
    submission. *)
Lemma failed_transfer_is_not_502 :
  (existsb download_failed (serve net_gone 10 req_hello).2 = true /\
   http_status (serve net_gone 10 req_hello).1.1 = Some 500) /\
  (existsb upload_failed (serve net_full 10 req_hello).2 = true /\
   http_status (serve net_full 10 req_hello).1.1 = Some 500) /\
  (existsb submission_failed (serve net_busy 10 req_hello).2 = true /\
   http_status (serve net_busy 10 req_hello).1.1 = Some 502).
Proof. vm_compute. repeat split; reflexivity. Qed.

(** C3 on a request whose character is the array [["harry"]]. *)
Lemma unhashable_character_is_500_witness :
  catalog_styles (JArr [JStr "harry"]) = None /\
  validate no_rendering req_array_character
    = Raise (LibraryError TypeError "unhashable type: 'list'") /\
  serve net_happy 10 req_array_character = (ErrorPage 500, world0, []).
Proof.
  apply (unhashable_character_is_500 sample_key sample_endpoint no_rendering no_rendering
           net_happy 10 req_array_character world0
           [("text", JStr "hello"); ("talkingAvatarCharacter", JArr [JStr "harry"])] "hello").
  - vm_compute. reflexivity.
  - reflexivity.
  - reflexivity.
  - vm_compute. discriminate.
  - vm_compute. reflexivity.
  - reflexivity.
Defined.

(** The two checks beside the character check search a list, and answer
    400 for an array; so does the text check for white space of any width. *)
Lemma list_checks_reject_arrays :
  http_status (serve net_happy 10 req_array_voice).1.1 = Some 400 /\
  http_status (serve net_happy 10 req_array_style).1.1 = Some 400 /\
  serve net_happy 10 req_wide_blank
    = (Sent (error_response "Missing 'text' field" 400), world0, []).
Proof. vm_compute. repeat split; reflexivity. Qed.

(** C5 on a reply that says [Succeeded] with a null [outputs]. *)
Lemma succeeded_outputs_not_object_witness :
  let run := poll_avatar_job sample_endpoint no_rendering net_null_outputs 10 "job-1" 600 5
               world0 in
  run.1.1 = Raise (LibraryError AttributeError "'NoneType' object has no attribute 'get'") /\
  run.1.1 <> Raise (RuntimeError "Job succeeded but no result URL found") /\
  last run.2
    = Some (EvStatus (job_url sample_endpoint "job-1") 0 20
              (Answer 20 (reply 200 "OK" "" (Some null_outputs_body)))) /\
  code (on_exception
          (LibraryError AttributeError "'NoneType' object has no attribute 'get'")) = 500 /\
  code (on_exception (RuntimeError "Job succeeded but no result URL found")) = 502.
Proof.
  cbv zeta.
  set (run := poll_avatar_job sample_endpoint no_rendering net_null_outputs 10 "job-1" 600 5
                world0).
  apply (succeeded_outputs_not_object sample_endpoint no_rendering net_null_outputs 10
           "job-1" 600 5 world0 run.1.2 run.1.1 run.2
           (EvStatus (job_url sample_endpoint "job-1") 0 20
              (Answer 20 (reply 200 "OK" "" (Some null_outputs_body))))
           (reply 200 "OK" "" (Some null_outputs_body)) JNull).
  - vm_compute. reflexivity.
  - vm_compute. left. reflexivity.
  - reflexivity.
  - exists [("status", JStr "Succeeded"); ("outputs", JNull)].
    repeat split; reflexivity.
Defined.

(** The route on that reply answers 500; on a reply that says [Succeeded]
    and has no [outputs] at all, the call raises the error that holds no
    result URL was found, and the route answers 502. *)
Lemma null_outputs_is_attribute_error :
  status_answer net_null_outputs 0 = Answer 20 (reply 200 "OK" "" (Some null_outputs_body)) /\
  assoc "status" [("status", JStr "Succeeded"); ("outputs", JNull)]
    = Some (JStr "Succeeded") /\
  (poll_avatar_job sample_endpoint no_rendering net_null_outputs 10 "job-1" 600 5 world0).1.1
    = Raise (LibraryError AttributeError "'NoneType' object has no attribute 'get'") /\
  http_status (serve net_null_outputs 10 req_hello).1.1 = Some 500 /\
  (poll_avatar_job sample_endpoint no_rendering net_no_outputs 10 "job-1" 600 5 world0).1.1
    = Raise (RuntimeError "Job succeeded but no result URL found") /\
  http_status (serve net_no_outputs 10 req_hello).1.1 = Some 502.
Proof. vm_compute. repeat split; reflexivity. Qed.

(** C6 as stated fails: the message of the 400 response names none of the
    valid voices. *)
Lemma unknown_voice_message_lists_no_voice :
  serve net_happy 10 req_robot
    = (Sent (error_response "Invalid voice 'robot'. See GET /voices for options." 400),
       world0, []) /\
  existsb (fun v => substringb v "Invalid voice 'robot'. See GET /voices for options.")
    ALL_VOICES = false.
Proof. vm_compute. repeat split; reflexivity. Qed.

(** C10 as stated fails: the request is authenticated, has text, omits
    voice and style, and is answered 400, because the default style is not
    a style of the character it names. *)
Lemma default_style_rejected_for_jeff :
  authorize sample_key req_jeff = Ok None /\
  assoc "voice" [("text", JStr "hello"); ("talkingAvatarCharacter", JStr "jeff")] = None /\
  assoc "talkingAvatarStyle" [("text", JStr "hello"); ("talkingAvatarCharacter", JStr "jeff")]
    = None /\
  http_status (serve net_happy 10 req_jeff).1.1 = Some 400.
Proof. vm_compute. repeat split; reflexivity. Qed.

(** ** The further properties on the worked inputs *)

(** X13 with no time at all. *)
Lemma poll_without_time_witness :
  poll_avatar_job sample_endpoint no_rendering net_happy 0 "job-1" 0 5 world0
    = (Raise (timeout_error "job-1" 0), world0, []).
Proof.
  apply (poll_without_time sample_endpoint no_rendering net_happy 0 "job-1" 0 5 world0).
  vm_compute. discriminate.
Defined.

(** X14 on a provider that reports success on the third query. *)
Lemma poll_queries_keep_the_interval_witness :
  forallb (is_query_of (job_url sample_endpoint "job-1"))
    (poll_avatar_job sample_endpoint no_rendering net_happy 10 "job-1" 600 5 world0).2
    = true /\
  spaced (seconds 5)
    (poll_avatar_job sample_endpoint no_rendering net_happy 10 "job-1" 600 5 world0).2.
Proof.
  set (run := poll_avatar_job sample_endpoint no_rendering net_happy 10 "job-1" 600 5 world0).
  destruct (poll_queries_keep_the_interval sample_endpoint no_rendering net_happy 10 "job-1"
              600 5 world0 run.1.2 run.1.1 run.2 ltac:(vm_compute; reflexivity))
    as (H1 & _ & H2 & _).
  split; [exact H1|exact H2].
Defined.

(** X1 on a request with the right key in its header. *)
Lemma authorize_accepts_iff_witness : authorize sample_key req_hello = Ok None.
Proof.
  apply (proj2 (proj1 (authorize_accepts_iff sample_key req_hello))).
  left. exists sample_key. split; [reflexivity|]. split; [discriminate|reflexivity].
Defined.


(** X3 on a request that gives a background image. *)
Lemma background_image_or_white_witness :
  exists j pf cfg,
    validate no_rendering req_backdrop = Ok (inr j) /\
    job_payload (jr_text j) (jr_voice j) (jr_character j) (jr_style j) (jr_background j)
      = JObj pf /\
    assoc "avatarConfig" pf = Some (JObj cfg) /\
    assoc "backgroundImage" cfg = Some (JStr "https://media.example/bg.png") /\
    assoc "backgroundColor" cfg = None.
Proof.
  pose proof (background_image_or_white no_rendering req_backdrop
                [("text", JStr "hello"); ("background", JStr "https://media.example/bg.png")]
                {| jr_text := "hello"; jr_voice := JStr "th-TH-NiwatNeural";
                   jr_character := JStr "harry"; jr_style := JStr "casual";
                   jr_background := JStr "https://media.example/bg.png" |}
                eq_refl ltac:(vm_compute; reflexivity)) as (_ & pf & cfg & Hp & Hc & Hb).
  eexists _, pf, cfg. split; [vm_compute; reflexivity|].
  split; [exact Hp|]. split; [exact Hc|exact Hb].
Defined.

(** X4 on a job the provider refuses. *)
Lemma route_status_codes_witness :
  match (serve net_busy 10 req_hello).1.1 with
  | Sent r =>
      In (code r) route_codes /\
      (code r <> 200 -> exists msg, content r = JObj [("error", JStr msg)])
  | ErrorPage c => In c page_codes
  | NoResponse => True
  end.
Proof.
  apply (route_status_codes sample_key sample_endpoint no_rendering no_rendering
           net_busy 10 req_hello world0
           (serve net_busy 10 req_hello).1.2 (serve net_busy 10 req_hello).1.1
           (serve net_busy 10 req_hello).2).
  vm_compute. reflexivity.
Defined.

(** X6 on a run whose upload is rejected. *)
Lemma route_call_order_witness :
  (serve net_full 10 req_hello).2 = [] \/
  exists e_put queries transfers,
    (serve net_full 10 req_hello).2 = e_put :: queries ++ transfers /\
    is_put e_put = true /\
    forallb (is_query_of (job_url sample_endpoint (uuid4 net_full))) queries = true /\
    (submission_failed e_put = true -> queries = [] /\ transfers = []) /\
    match transfers with
    | [] => True
    | e_dl :: rest =>
        (exists q r u t0 t1 a,
           last queries = Some q /\ status_reply q = Some r /\
           reports_succeeded r (JStr u) /\ e_dl = EvDownload u t0 t1 a) /\
        match rest with
        | [] => True
        | e_up :: more =>
            more = [] /\ download_answered e_dl = true /\
            exists t0 t1 a, e_up = EvUpload (temp_name net_full) t0 t1 a
        end
    end.
Proof.
  apply (route_call_order sample_key sample_endpoint no_rendering no_rendering
           net_full 10 req_hello world0
           (serve net_full 10 req_hello).1.2 (serve net_full 10 req_hello).1.1
           (serve net_full 10 req_hello).2).
  vm_compute. reflexivity.
Defined.

(** X7 on a run where every step succeeds. *)
Lemma success_runs_every_step_witness :
  exists e_put queries q r u e_dl e_up result cu,
    (serve net_happy 10 req_hello).2 = e_put :: queries ++ [e_dl; e_up] /\
    is_put e_put = true /\ submission_failed e_put = false /\
    forallb (is_query_of (job_url sample_endpoint (uuid4 net_happy))) queries = true /\
    last queries = Some q /\ status_reply q = Some r /\ reports_succeeded r (JStr u) /\
    (exists t0 t1 a, e_dl = EvDownload u t0 t1 a) /\ download_answered e_dl = true /\
    (exists t0 t1 took, e_up = EvUpload (temp_name net_happy) t0 t1 (Stored took result)) /\
    assoc "secure_url" result = Some cu /\
    (serve net_happy 10 req_hello).1.1
      = Sent {| code := 200;
                content := JObj [ ("success", JBool true);
                                  ("video_url", cu);
                                  ("job_id", JStr (uuid4 net_happy)) ] |}.
Proof.
  apply (success_runs_every_step sample_key sample_endpoint no_rendering no_rendering
           net_happy 10 req_hello world0
           (serve net_happy 10 req_hello).1.2 (serve net_happy 10 req_hello).1.1
           (serve net_happy 10 req_hello).2).
  - vm_compute. reflexivity.
  - vm_compute. reflexivity.
Defined.

(** X8 on a provider that reports the job failed. *)
Lemma failed_job_is_502_witness :
  (serve net_failed 10 req_hello).1.1
    = Sent (error_response ("Avatar job failed: " +:+ no_rendering failed_body) 502) /\
  last (serve net_failed 10 req_hello).2
    = Some (EvStatus (job_url sample_endpoint "job-1") 40 60
              (Answer 20 (reply 200 "OK" "" (Some failed_body)))) /\
  existsb is_transfer (serve net_failed 10 req_hello).2 = false /\
  tmpfiles (serve net_failed 10 req_hello).1.2 = tmpfiles world0.
Proof.
  apply (failed_job_is_502 sample_key sample_endpoint no_rendering no_rendering
           net_failed 10 req_hello world0
           (serve net_failed 10 req_hello).1.2 (serve net_failed 10 req_hello).1.1
           (serve net_failed 10 req_hello).2
           (EvStatus (job_url sample_endpoint "job-1") 40 60
              (Answer 20 (reply 200 "OK" "" (Some failed_body))))
           (reply 200 "OK" "" (Some failed_body)) failed_body).
  - vm_compute. reflexivity.
  - vm_compute. right. left. reflexivity.
  - reflexivity.
  - exists [("status", JStr "Failed"); ("error", JStr "synthesis failed")].
    repeat split; reflexivity.
Defined.

(** X9 on a provider that answers the status query with 503. *)
Lemma failed_status_query_is_500_witness :
  http_status (serve net_unavailable 10 req_hello).1.1 = Some 500 /\
  last (serve net_unavailable 10 req_hello).2
    = Some (EvStatus (job_url sample_endpoint "job-1") 40 60
              (Answer 20 (reply 503 "Service Unavailable" "" None))).
Proof.
  apply (failed_status_query_is_500 sample_key sample_endpoint no_rendering no_rendering
           net_unavailable 10 req_hello world0
           (serve net_unavailable 10 req_hello).1.2 (serve net_unavailable 10 req_hello).1.1
           (serve net_unavailable 10 req_hello).2
           (EvStatus (job_url sample_endpoint "job-1") 40 60
              (Answer 20 (reply 503 "Service Unavailable" "" None)))
           (reply 503 "Service Unavailable" "" None)).
  - vm_compute. reflexivity.
  - vm_compute. right. left. reflexivity.
  - reflexivity.
  - reflexivity.
Defined.

(** X10 on a provider that answers [Pending] for ever. *)
Lemma gateway_timeout_takes_600_seconds_witness :
  clock world0 + seconds 600 <= clock (serve net_never 120 req_hello).1.2 /\
  existsb is_transfer (serve net_never 120 req_hello).2 = false.
Proof.
  apply (proj2 (gateway_timeout_takes_600_seconds sample_key sample_endpoint no_rendering
                  no_rendering net_never 120 req_hello world0
                  (serve net_never 120 req_hello).1.2 (serve net_never 120 req_hello).1.1
                  (serve net_never 120 req_hello).2
                  ltac:(vm_compute; reflexivity))).
  vm_compute. reflexivity.
Defined.

(** X11 on a run whose upload is rejected: the temporary file stays, and
    a file of another name is neither created nor removed. *)
Lemma other_files_untouched_witness :
  "/tmp/other.mp4" ∈ tmpfiles (serve net_full 10 req_hello).1.2
  <-> "/tmp/other.mp4" ∈ tmpfiles world0.
Proof.
  apply (proj1 (other_files_untouched sample_key sample_endpoint no_rendering
                  no_rendering net_full 10 req_hello world0
                  (serve net_full 10 req_hello).1.2 (serve net_full 10 req_hello).1.1
                  (serve net_full 10 req_hello).2
                  ltac:(vm_compute; reflexivity)) "/tmp/other.mp4").
  vm_compute. discriminate.
Defined.

(** X12 on a URL that answers 404: no file is created. *)
Lemma download_file_creates_file_last_witness :
  tmpfiles
    (download_file no_rendering net_gone (JStr "https://provider.example/v.mp4") world0).1.2
    = tmpfiles world0 /\
  exists e,
    (download_file no_rendering net_gone (JStr "https://provider.example/v.mp4") world0).1.1
    = Raise e.
Proof.
  set (run := download_file no_rendering net_gone (JStr "https://provider.example/v.mp4")
                world0).
  apply (proj1 (proj2 (download_file_creates_file_last no_rendering net_gone
                         (JStr "https://provider.example/v.mp4") world0
                         run.1.2 run.1.1 run.2 ltac:(vm_compute; reflexivity)))).
  vm_compute. reflexivity.
Defined.

(** X15 on an environment with every variable set. *)
Lemma startup_requires_every_variable_witness :
  exists c, load_config sample_env = Ok c.
Proof.
  apply (proj2 (proj1 (startup_requires_every_variable sample_env))).
  intros v Hv. cbn [In REQUIRED_VARS] in Hv.
  repeat (destruct Hv as [<-|Hv];
          [eexists; split; [vm_compute; reflexivity|discriminate]|]).
  destruct Hv.
Defined.

(** X16 on that environment, whose endpoint ends in two slashes. *)
Lemma endpoint_loses_trailing_slashes_witness :
  exists raw slashes,
    sample_env !! "AZURE_AVATAR_ENDPOINT" = Some raw /\ raw <> "" /\
    raw = cfg_endpoint sample_config +:+ slashes /\ all_slash slashes = true /\
    rstrip_by is_slash (cfg_endpoint sample_config) = cfg_endpoint sample_config /\
    (forall more, all_slash more = true ->
       rstrip_by is_slash (raw +:+ more) = cfg_endpoint sample_config) /\
    (cfg_endpoint sample_config = "" <-> all_slash raw = true).
Proof.
  apply (endpoint_loses_trailing_slashes sample_env sample_config).
  vm_compute. reflexivity.
Defined.
